(** * PyToApkConverter: configuration store, recent-projects menu and build orchestration

    A shallow embedding of [main.py].  The methods of [PyToApkConverter] that
    touch the configuration file, the form variables and the "Recent Projects"
    menu are translated one by one into a small state-and-exception monad over
    the pair (disk, object attributes).  What [__init__] needs and the source
    does not hold (a display, the methods the widgets are bound to) is a
    parameter, [Env].  The build orchestrator, whose methods are referenced by
    the menu but not defined in the source, is kept apart in
    [Module Orchestrator]. *)

From Stdlib Require Import Ascii.
From stdpp Require Import gmap strings list fin_maps.

Set Warnings "-register-all".

(** ** Python values *)

(** The values [json.load] can produce and [json.dump] can write: [None],
    booleans, integers, strings, lists and dicts keyed by strings. *)
Inductive pyval : Type :=
  | PNone
  | PBool (b : bool)
  | PInt (z : Z)
  | PStr (s : string)
  | PList (l : list pyval)
  | PDict (d : gmap string pyval).

(** The exceptions the modelled statements raise; all of them derive from
    [Exception], so every one is caught by [except Exception]. *)
Inductive exn : Type :=
  | OSError            (* FileNotFoundError, PermissionError, ENOSPC, ... *)
  | JSONDecodeError
  | AttributeError
  | KeyError
  | TypeError
  | TclError.          (* tkinter: no display *)

(** [logging] records: only [logger.error] is used by the modelled methods. *)
Inductive log_record : Type :=
  | ERROR (msg : string) (e : exn).

(** ** The disk *)

(** What the configuration file holds: a JSON document, identified with the
    value [json.load] returns for it (and [json.dump] writes for it), or bytes
    that [json.load] rejects. *)
Inductive content : Type :=
  | Doc (v : pyval)
  | Unparsable.

(** The part of the file system [main.py] reaches: the directory
    [~/.pyapkconverter] and the file [config.json] in it, with the ways the
    operating system may refuse an operation. *)
Record Disk : Type := mkDisk {
  dir_exists : bool;          (* ~/.pyapkconverter is a directory *)
  dir_creatable : bool;       (* mkdir would succeed *)
  file : option content;      (* config.json, [None] when absent *)
  can_read : bool;            (* open(config_file) is permitted *)
  can_write : bool;           (* open(config_file, 'w') is permitted *)
  has_space : bool;           (* writes reach the disk *)
  dir_searchable : bool;      (* stat of a name in ~/.pyapkconverter is
                                 permitted *)
}.

(** What [__init__] needs besides the disk and is not in [main.py]: a
    display for [tk.Tk()], and the methods the widgets are bound to
    ([on_closing], [new_project], ...), none of which the source defines. *)
Record Env : Type := mkEnv {
  display : bool;             (* tk.Tk() finds a display *)
  defined : string → bool;    (* the class has a method of that name *)
}.

(** ** The application object *)

(** One command of the "Recent Projects" submenu: its label and the project
    bound as default argument of its callback. *)
Record menu_entry : Type := mkEntry {
  label : pyval;
  bound_project : pyval;
}.

(** The attributes of [self] the modelled methods read or write.  A
    [tk.StringVar] is modelled by the object last handed to [set] (the empty
    string at creation); [recent_projects] is [None] as long as the attribute
    has not been bound. *)
Record App : Type := mkApp {
  python_file : pyval;
  output_dir : pyval;
  recent_projects : option pyval;
  recent_menu : list menu_entry;
  status_var : string;
}.

(** The whole state threaded through the methods. *)
Record World : Type := mkWorld {
  disk : Disk;
  self : App;
  logged : list log_record;
}.

(** ** A state-and-exception monad *)

Definition M (A : Type) : Type := World → (exn + A) * World.

Definition ret {A} (a : A) : M A := λ w, (inr a, w).
Definition raise {A} (e : exn) : M A := λ w, (inl e, w).
Definition bind {A B} (m : M A) (k : A → M B) : M B :=
  λ w, match m w with
       | (inl e, w') => (inl e, w')
       | (inr a, w') => k a w'
       end.
(** [try: body except Exception as e: handler e] *)
Definition try_except (body : M unit) (handler : exn → M unit) : M unit :=
  λ w, match body w with
       | (inl e, w') => handler e w'
       | (inr a, w') => (inr a, w')
       end.

(** The methods below are written with stdpp's monadic notations
    [x ← m; k] and [m;; k]. *)
#[export] Instance M_ret : MRet M := @ret.
#[export] Instance M_bind : MBind M := λ A B k m, bind m k.

Definition get_disk : M Disk := λ w, (inr (disk w), w).
Definition put_disk (d : Disk) : M unit :=
  λ w, (inr (), mkWorld d (self w) (logged w)).
Definition get_self : M App := λ w, (inr (self w), w).
Definition put_self (a : App) : M unit :=
  λ w, (inr (), mkWorld (disk w) a (logged w)).
(** [self.logger.error(f"{msg}: {e}")] *)
Definition logger_error (msg : string) (e : exn) : M unit :=
  λ w, (inr (), mkWorld (disk w) (self w) (logged w ++ [ERROR msg e])).

Definition run {A} (m : M A) (w : World) : World := (m w).2.
Definition outcome {A} (m : M A) (w : World) : exn + A := (m w).1.

(** ** Paths *)

(** The pieces of [s] between the occurrences of [sep]. *)
Fixpoint split_on (sep : Ascii.ascii) (s : string) : list string :=
  match s with
  | EmptyString => [EmptyString]
  | String c s' =>
      if Ascii.eqb c sep then EmptyString :: split_on sep s'
      else match split_on sep s' with
           | [] => [String c EmptyString]
           | piece :: pieces => String c piece :: pieces
           end
  end.

(** [s] without its anchor: one or two leading slashes. *)
Definition drop_anchor (s : string) : string :=
  match s with
  | String "/"%char (String "/"%char rest) => rest
  | String "/"%char rest => rest
  | _ => s
  end.

(** [s] is the text [str] gives for a path on a POSIX system
    ([PurePosixPath]): [.], an anchor [/] or [//] alone, or an optional anchor
    followed by components separated by single slashes, none of them empty or
    [.]. *)
Definition posix_path_text (s : string) : bool :=
  bool_decide (s = ".") || bool_decide (s = "/") || bool_decide (s = "//") ||
  forallb (λ piece, negb (bool_decide (piece = "")) &&
                    negb (bool_decide (piece = ".")))
          (split_on "/"%char (drop_anchor s)).

(** [str(Path(p) / name)] for the text [p] of a POSIX path and a single
    component [name]: the empty path [.] gives way to [name], an anchor alone
    takes no further separator. *)
Definition joinpath (p name : string) : string :=
  if decide (p = ".") then name
  else if decide (p = "/") then "/" +:+ name
  else if decide (p = "//") then "//" +:+ name
  else p +:+ "/" +:+ name.

(** ** Python primitives used by the methods *)

(** [config.get(key, dflt)]: only a dict has the method. *)
Definition py_get (config : pyval) (key : string) (dflt : pyval) : M pyval :=
  match config with
  | PDict d => ret (default dflt (d !! key))
  | _ => raise AttributeError
  end.

(** [project[key]] with a string key. *)
Definition py_getitem (project : pyval) (key : string) : M pyval :=
  match project with
  | PDict d => match d !! key with
               | Some v => ret v
               | None => raise KeyError
               end
  | _ => raise TypeError
  end.

Fixpoint chars (s : string) : list pyval :=
  match s with
  | EmptyString => []
  | String c s' => PStr (String c EmptyString) :: chars s'
  end.

(** The items visited by [for project in x[-5:]]: the last five elements of
    a list, the last five characters of a string; every other value refuses
    the slice (a dict with [TypeError] up to Python 3.11 and [KeyError] from
    3.12 on; the model keeps [TypeError], which only shows in the log). *)
Definition py_last5 (x : pyval) : M (list pyval) :=
  match x with
  | PList l => ret (drop (length l - 5) l)
  | PStr s => ret (drop (length (chars s) - 5) (chars s))
  | _ => raise TypeError
  end.

(** [open(self.config_file)] followed by [json.load(f)]. *)
Definition open_and_load : M pyval :=
  d ← get_disk;
  match file d with
  | None => raise OSError
  | Some c =>
      if can_read d then
        match c with
        | Doc v => ret v
        | Unparsable => raise JSONDecodeError
        end
      else raise OSError
  end.

(** [open(self.config_file, 'w')] followed by [json.dump(config, f, indent=4)]:
    opening truncates the file, so a write that fails afterwards leaves bytes
    that are not a JSON document. *)
Definition open_and_dump (config : pyval) : M unit :=
  d ← get_disk;
  if dir_exists d && can_write d then
    if has_space d then
      put_disk (mkDisk (dir_exists d) (dir_creatable d) (Some (Doc config))
                       (can_read d) (can_write d) (has_space d)
                       (dir_searchable d))
    else
      (put_disk (mkDisk (dir_exists d) (dir_creatable d) (Some Unparsable)
                        (can_read d) (can_write d) (has_space d)
                        (dir_searchable d));;
       raise OSError)
  else raise OSError.

(** [self.config_file.parent.mkdir(parents=True, exist_ok=True)] *)
Definition mkdir_parent : M unit :=
  d ← get_disk;
  if dir_exists d then ret ()
  else if dir_creatable d then
    put_disk (mkDisk true (dir_creatable d) (file d)
                     (can_read d) (can_write d) (has_space d)
                     (dir_searchable d))
  else raise OSError.

(** [self.config_file.exists()]: [Path.exists] answers [False] for a missing
    file but lets the [PermissionError] of an unsearchable directory through. *)
Definition path_exists : M bool :=
  d ← get_disk;
  if dir_searchable d then ret (bool_decide (is_Some (file d)))
  else raise OSError.

(** ** The methods of [PyToApkConverter] *)

(** [self.recent_menu.add_command(label=project['name'], command=lambda p=project: ...)] *)
Definition add_command (project : pyval) : M unit :=
  name ← py_getitem project "name";
  a ← get_self;
  put_self (mkApp (python_file a) (output_dir a) (recent_projects a)
                  (recent_menu a ++ [mkEntry name project]) (status_var a)).

Fixpoint for_each (body : pyval → M unit) (items : list pyval) : M unit :=
  match items with
  | [] => ret ()
  | x :: rest => body x ;; for_each body rest
  end.

(** [update_recent_projects_menu] *)
Definition update_recent_projects_menu : M unit :=
  a ← get_self;
  put_self (mkApp (python_file a) (output_dir a) (recent_projects a)
                  [] (status_var a));;
  match recent_projects a with
  | None => raise AttributeError
  | Some rp =>
      items ← py_last5 rp;
      for_each add_command items
  end.

(** [save_config] *)
Definition save_config (config : pyval) : M unit :=
  try_except (open_and_dump config)
             (λ e, logger_error "Failed to save config" e).

(** [load_saved_config] *)
Definition load_saved_config : M unit :=
  try_except
    (config ← open_and_load;
     od ← py_get config "last_output_dir" (PStr "");
     a ← get_self;
     put_self (mkApp (python_file a) od (recent_projects a)
                     (recent_menu a) (status_var a));;
     rp ← py_get config "recent_projects" (PList []);
     a ← get_self;
     put_self (mkApp (python_file a) (output_dir a) (Some rp)
                     (recent_menu a) (status_var a));;
     update_recent_projects_menu)
    (λ e, logger_error "Failed to load config" e).

(** [self.<name>] for a method bound to a widget: the attribute lookup
    raises when the class has no such method. *)
Definition bound_method (env : Env) (name : string) : M unit :=
  if defined env name then ret () else raise AttributeError.

(** [create_menu]: the commands are bound in the order of the source; the
    "Recent Projects" submenu is created empty between them. *)
Definition create_menu (env : Env) : M unit :=
  bound_method env "new_project";;
  bound_method env "open_project";;
  a ← get_self;
  put_self (mkApp (python_file a) (output_dir a) (recent_projects a)
                  [] (status_var a));;
  bound_method env "on_closing";;
  bound_method env "clean_build";;
  bound_method env "check_requirements";;
  bound_method env "start_build_apk";;
  bound_method env "show_documentation";;
  bound_method env "show_about".

(** [create_file_selectors]: the two "Browse" buttons. *)
Definition create_file_selectors (env : Env) : M unit :=
  bound_method env "browse_python_file";;
  bound_method env "browse_output_dir".

(** [create_main_content]: of its three parts only [create_file_selectors]
    binds methods; [create_build_options] and [create_progress_indicators]
    create widgets and variables that no modelled method reads. *)
Definition create_main_content (env : Env) : M unit :=
  create_file_selectors env.

(** [create_status_bar] *)
Definition create_status_bar : M unit :=
  a ← get_self;
  put_self (mkApp (python_file a) (output_dir a) (recent_projects a)
                  (recent_menu a) "Ready").

(** [setup_gui]: [self.protocol("WM_DELETE_WINDOW", self.on_closing)], then
    the menu, the main content and the status bar. *)
Definition setup_gui (env : Env) : M unit :=
  bound_method env "on_closing";;
  create_menu env;;
  create_main_content env;;
  create_status_bar.

(** The methods [setup_gui] binds, in the order it looks them up. *)
Definition handlers : list string :=
  ["on_closing"; "new_project"; "open_project"; "on_closing"; "clean_build";
   "check_requirements"; "start_build_apk"; "show_documentation";
   "show_about"; "browse_python_file"; "browse_output_dir"].

(** The window can be built: a display is there and every bound method is
    defined. *)
Definition gui_ready (env : Env) : bool :=
  display env && forallb (defined env) handlers.

(** The attributes bound by [__init__] before its first method call. *)
Definition fresh_app : App := mkApp (PStr "") (PStr "") None [] "".

Section Home.

Variable env : Env.

(** [str(Path.home())] *)
Variable home : string.

(** The dict literal of [init_config]. *)
Definition default_config : pyval :=
  PDict (<["last_python_dir" := PStr home]>
         (<["last_output_dir" := PStr (joinpath home "APK_Output")]>
          (<["recent_projects" := PList []]> ∅))).

(** [init_config] *)
Definition init_config : M unit :=
  mkdir_parent;;
  present ← path_exists;
  if negb present then save_config default_config
  else ret ().

(** [__init__], run on a disk [d] with an empty log: [super().__init__()]
    needs the display. *)
Definition init : M unit :=
  (if display env then ret () else raise TclError);;
  put_self fresh_app;;
  init_config;;
  setup_gui env;;
  load_saved_config;;
  a ← get_self;
  put_self (mkApp (python_file a) (output_dir a) (Some (PList []))
                  (recent_menu a) (status_var a)).

Definition launch (d : Disk) : (exn + unit) * World :=
  init (mkWorld d fresh_app []).

End Home.

(** ** Pure descriptions used in the statements *)

(** The worlds that differ from [w] only in the configuration file. *)
Definition with_file (w : World) (c : option content) : World :=
  mkWorld (mkDisk (dir_exists (disk w)) (dir_creatable (disk w)) c
                  (can_read (disk w)) (can_write (disk w)) (has_space (disk w))
                  (dir_searchable (disk w)))
          (self w) (logged w).

Definition with_menu (a : App) (m : list menu_entry) : App :=
  mkApp (python_file a) (output_dir a) (recent_projects a) m (status_var a).

(** The exception [project['name']] raises, if any. *)
Definition name_error (project : pyval) : option exn :=
  match project with
  | PDict d => if d !! "name" is Some _ then None else Some KeyError
  | _ => Some TypeError
  end.

(** The menu commands a run of the loop adds for [items]: one per item, up to
    the first item without a name. *)
Fixpoint entries (items : list pyval) : list menu_entry :=
  match items with
  | [] => []
  | p :: rest =>
      match p with
      | PDict d => match d !! "name" with
                   | Some n => mkEntry n p :: entries rest
                   | None => []
                   end
      | _ => []
      end
  end.

Fixpoint loop_error (items : list pyval) : option exn :=
  match items with
  | [] => None
  | p :: rest => match name_error p with
                 | Some e => Some e
                 | None => loop_error rest
                 end
  end.

(** The exception raised by [open] or [json.load] in [load_saved_config]. *)
Definition load_error (d : Disk) : option exn :=
  match file d with
  | None => Some OSError
  | Some c => if can_read d then
                match c with Doc _ => None | Unparsable => Some JSONDecodeError end
              else Some OSError
  end.

(** The dict a [UserConfig] is saved as: the three keys of [init_config]. *)
Definition config_dict (last_python_dir last_output_dir : string)
    (projects : list pyval) : pyval :=
  PDict (<["last_python_dir" := PStr last_python_dir]>
         (<["last_output_dir" := PStr last_output_dir]>
          (<["recent_projects" := PList projects]> ∅))).

(** The defaults as the specification words them: the home directory as both
    last browse locations and an empty recent list. *)
Definition documented_defaults (home : string) : pyval :=
  config_dict home home [].

(** A project record whose only key the source reads is [name]. *)
Definition project (name path : string) : pyval :=
  PDict (<["name" := PStr name]> (<["path" := PStr path]> ∅)).

(** The attributes after the two assignments of [load_saved_config]. *)
Definition loaded_app (a : App) (cfg : gmap string pyval) : App :=
  mkApp (python_file a)
        (default (PStr "") (cfg !! "last_output_dir"))
        (Some (default (PList []) (cfg !! "recent_projects")))
        (recent_menu a) (status_var a).

(** [project['name']] when the project is a dict that has the key. *)
Definition name_of (project : pyval) : option pyval :=
  match project with
  | PDict d => d !! "name"
  | _ => None
  end.

(** The form once [setup_gui] has returned: both fields empty, the list not
    yet bound, an empty menu, the status [Ready]. *)
Definition blank_form : App := mkApp (PStr "") (PStr "") None [] "Ready".

(** The last assignment of [__init__]. *)
Definition reassigned (w : World) : World :=
  mkWorld (disk w)
          (mkApp (python_file (self w)) (output_dir (self w)) (Some (PList []))
                 (recent_menu (self w)) (status_var (self w)))
          (logged w).

(** ** Sample disks and sessions *)

(** A disk on which nothing has been created yet and nothing is refused. *)
Definition blank_disk : Disk := mkDisk false true None true true true true.

(** A world whose disk accepts every operation and whose form holds a script
    path chosen by the user. *)
Definition sample_world : World :=
  mkWorld (mkDisk true true None true true true true)
          (mkApp (PStr "/home/u/app.py") (PStr "") None [] "Ready") [].

Definition seven_projects : list pyval :=
  [project "p1" "/w/p1"; project "p2" "/w/p2"; project "p3" "/w/p3";
   project "p4" "/w/p4"; project "p5" "/w/p5"; project "p6" "/w/p6";
   project "p7" "/w/p7"].

(** A configuration file left by an earlier session, with one recent project. *)
Definition used_disk : Disk :=
  mkDisk true true
         (Some (Doc (config_dict "/home/u/src" "/home/u/out"
                                 [project "demo" "/home/u/demo"])))
         true true true true.

(** A configuration file that is not a JSON document. *)
Definition corrupt_disk : Disk :=
  mkDisk true true (Some Unparsable) true true true true.

(** An environment in which the window can be built: a display, and every
    method defined. *)
Definition ready_env : Env := mkEnv true (λ _, true).

(** The class as [main.py] leaves it: none of the bound methods defined. *)
Definition bare_env : Env := mkEnv true (λ _, false).

(** A session in which the user has chosen an output directory and has one
    recent project, over the corrupt file. *)
Definition busy_world : World :=
  mkWorld corrupt_disk
          (mkApp (PStr "/home/u/app.py") (PStr "/tmp/out")
                 (Some (PList [project "demo" "/home/u/demo"])) [] "Ready")
          [].

(** * The build orchestrator

    [create_menu] binds the "Build APK" command to [self.start_build_apk] and
    [create_progress_indicators] creates the progress bar, but the methods that
    start a build, stream its output and report its end are not defined in
    [main.py].  They are modelled here from sections 3, 4.2, 4.3 and 5 of the
    specification, as a transition system over the events the form and the
    worker deliver. *)
Module Orchestrator.

(** Modelled from the spec: the terminal status of a BuildRun (section 3),
    the methods that set it being absent from the source. *)
Inductive Status : Type := running | succeeded | failed | cancelled.

Inductive Sdk : Type := sdk29 | sdk28 | sdk27 | sdk26.
Inductive BuildType : Type := debug | release.

(** Modelled from the spec: the BuildRequest built from the form when a build
    starts (section 3); [start_build_apk] is absent from the source. *)
Record BuildRequest : Type := mkRequest {
  req_python_file : string;
  req_output_dir : string;
  req_target_sdk : Sdk;
  req_build_type : BuildType;
}.

(** Modelled from the spec: the BuildRun owned by the orchestrator (section
    3): subprocess handle, accumulated log lines, progress percentage, status. *)
Record BuildRun : Type := mkRun {
  handle : nat;
  request : BuildRequest;
  log_lines : list string;
  progress : nat;
  status : Status;
}.

(** Modelled from the spec: the persisted UserConfig (section 3), its
    recent projects kept as the JSON values the file holds. *)
Record UserConfig : Type := mkConfig {
  last_python_dir : string;
  last_output_dir : string;
  cfg_recent : list pyval;
}.

(** Modelled from the spec: the document a UserConfig is saved as (sections 3
    and 6): the three keys [init_config] writes. *)
Definition config_doc (cfg : UserConfig) : pyval :=
  config_dict (last_python_dir cfg) (last_output_dir cfg) (cfg_recent cfg).

(** Modelled from the spec: what the form surfaces to the user (validation
    message of section 4.2, rejection and terminal reports of section 4.3). *)
Inductive Message : Type :=
  | ValidationError
  | AlreadyRunning
  | BuildSucceeded
  | BuildFailed (tail : list string)
  | BuildCancelled.

(** Modelled from the spec: the form fields of section 4.2, the single
    active-BuildRun slot of section 5 and what the orchestrator shows; the
    methods that maintain them are absent from the source.  The configuration
    is persisted with the [save_config] of the source, on the disk and in the
    log held here. *)
Record State : Type := mkState {
  script_path : string;
  output_path : string;
  target_sdk : Sdk;
  build_type : BuildType;
  active : option BuildRun;     (* the active-BuildRun slot *)
  finished : list BuildRun;     (* runs that reached a terminal status *)
  children : list nat;          (* handles of the live child processes *)
  spawned : nat;                (* child processes spawned so far *)
  trigger_enabled : bool;       (* the build-trigger control *)
  progress_bar : nat;           (* the displayed percentage *)
  messages : list Message;
  user_config : UserConfig;
  config_disk : Disk;           (* where the configuration file lives *)
  app_log : list log_record;    (* the application log *)
}.

(** Modelled from the spec: the events delivered by the form (edits, "Build
    APK", cancel) and by the worker of the child process with a given handle
    (a line of its output, its exit code), sections 4.2, 4.3 and 5. *)
Inductive Event : Type :=
  | SetScript (path : string)
  | SetOutputDir (path : string)
  | BuildAPK
  | Line (child : nat) (text : string)
  | Exited (child : nat) (code : Z)
  | Cancel.

(** [needle] occurs in [hay]. *)
Fixpoint contains (needle hay : string) : bool :=
  String.prefix needle hay ||
  match hay with
  | EmptyString => false
  | String _ rest => contains needle rest
  end.

(** Modelled from the spec: "persisted" (section 4.3, Completion) is the
    [save] of section 4.1, that is [save_config] of the source run on the
    document of the UserConfig; it yields the disk and the log it leaves
    ([save_config] neither reads nor writes the attributes of the object). *)
Definition persist (cfg : UserConfig) (d : Disk) (lg : list log_record)
    : Disk * list log_record :=
  let w := run (save_config (config_doc cfg)) (mkWorld d fresh_app lg) in
  (disk w, logged w).

Section Orchestration.

(** Whether a path exists on disk. *)
Variable exists_on_disk : string → bool.
(** The ordered table of (marker, percentage) pairs of section 9. *)
Variable markers : list (string * nat).
(** How many of the last log lines a failure surfaces. *)
Variable tail_n : nat.

(** Modelled from the spec: the percentage a line of output maps to, the
    first marker of the table that occurs in it (section 4.3, Streaming). *)
Definition marker_pct (text : string) : option nat :=
  snd <$> List.find (λ m, contains (fst m) text) markers.

(** Modelled from the spec: the validation of section 4.2. *)
Definition form_valid (st : State) : bool :=
  negb (bool_decide (script_path st = "")) &&
  negb (bool_decide (output_path st = "")) &&
  exists_on_disk (script_path st).

Definition say (st : State) (m : Message) : State :=
  mkState (script_path st) (output_path st) (target_sdk st) (build_type st)
          (active st) (finished st) (children st) (spawned st)
          (trigger_enabled st) (progress_bar st) (messages st ++ [m])
          (user_config st) (config_disk st) (app_log st).

(** Modelled from the spec: Start (section 4.3), reached from the "Build
    APK" action after the form validation of section 4.2; [start_build_apk] is
    absent from the source. *)
Definition start_build (st : State) : State :=
  if negb (form_valid st) then say st ValidationError
  else match active st with
       | Some _ => say st AlreadyRunning
       | None =>
           let r := mkRun (spawned st)
                          (mkRequest (script_path st) (output_path st)
                                     (target_sdk st) (build_type st))
                          [] 0 running in
           mkState (script_path st) (output_path st) (target_sdk st)
                   (build_type st) (Some r) (finished st)
                   (spawned st :: children st) (S (spawned st))
                   false 0 (messages st) (user_config st)
                   (config_disk st) (app_log st)
       end.

(** Modelled from the spec: the active run, when it is the one of the child
    [h]: each BuildRun has its own worker and subprocess (section 4.3,
    Concurrency). *)
Definition active_child (st : State) (h : nat) : option BuildRun :=
  match active st with
  | Some r => if handle r =? h then Some r else None
  | None => None
  end.

(** Modelled from the spec: Streaming (section 4.3): a line read from the
    child of the active run is appended to its log and the progress moves up
    to the percentage of its marker; a line of any other child is dropped. *)
Definition on_line (st : State) (h : nat) (text : string) : State :=
  match active_child st h with
  | None => st
  | Some r =>
      let p := match marker_pct text with
               | Some pct => max (progress r) pct
               | None => progress r
               end in
      mkState (script_path st) (output_path st) (target_sdk st)
              (build_type st)
              (Some (mkRun (handle r) (request r) (log_lines r ++ [text]) p
                           (status r)))
              (finished st) (children st) (spawned st)
              (trigger_enabled st) p (messages st)
              (user_config st) (config_disk st) (app_log st)
  end.

(** The last [n] elements of a list. *)
Definition lastn {A} (n : nat) (l : list A) : list A := drop (length l - n) l.

(** Modelled from the spec: Completion (section 4.3): the exit code of the
    child of the active run decides between [succeeded] and [failed]; on
    success the output directory of the request is recorded into the
    UserConfig, which is persisted; the slot is released and the trigger
    re-enabled on the way back to idle.  The exit of any other child changes
    nothing. *)
Definition on_exit (st : State) (h : nat) (code : Z) : State :=
  match active_child st h with
  | None => st
  | Some r =>
      if decide (code = 0%Z) then
        let cfg := mkConfig (last_python_dir (user_config st))
                            (req_output_dir (request r))
                            (cfg_recent (user_config st)) in
        let saved := persist cfg (config_disk st) (app_log st) in
        mkState (script_path st) (output_path st) (target_sdk st)
                (build_type st) None
                (mkRun (handle r) (request r) (log_lines r) 100 succeeded
                   :: finished st)
                (List.filter (λ h', negb (h' =? handle r)) (children st))
                (spawned st) true 100 (messages st ++ [BuildSucceeded])
                cfg (fst saved) (snd saved)
      else
        mkState (script_path st) (output_path st) (target_sdk st)
                (build_type st) None
                (mkRun (handle r) (request r) (log_lines r) (progress r) failed
                   :: finished st)
                (List.filter (λ h', negb (h' =? handle r)) (children st))
                (spawned st) true (progress_bar st)
                (messages st ++ [BuildFailed (lastn tail_n (log_lines r))])
                (user_config st) (config_disk st) (app_log st)
  end.

(** Modelled from the spec: cancellation (section 4.3): the child is
    terminated and the run ends [cancelled], its partial log kept. *)
Definition on_cancel (st : State) : State :=
  match active st with
  | None => st
  | Some r =>
      mkState (script_path st) (output_path st) (target_sdk st)
              (build_type st) None
              (mkRun (handle r) (request r) (log_lines r) (progress r) cancelled
                 :: finished st)
              (List.filter (λ h, negb (h =? handle r)) (children st))
              (spawned st) true (progress_bar st)
              (messages st ++ [BuildCancelled])
              (user_config st) (config_disk st) (app_log st)
  end.

(** Modelled from the spec: the state machine of section 4.3,
    [idle → running → {succeeded, failed, cancelled} → idle], one event at a
    time; the handlers behind it are absent from the source. *)
Definition step (st : State) (ev : Event) : State :=
  match ev with
  | SetScript p =>
      mkState p (output_path st) (target_sdk st) (build_type st)
              (active st) (finished st) (children st) (spawned st)
              (trigger_enabled st) (progress_bar st) (messages st)
              (user_config st) (config_disk st) (app_log st)
  | SetOutputDir p =>
      mkState (script_path st) p (target_sdk st) (build_type st)
              (active st) (finished st) (children st) (spawned st)
              (trigger_enabled st) (progress_bar st) (messages st)
              (user_config st) (config_disk st) (app_log st)
  | BuildAPK => start_build st
  | Line h text => on_line st h text
  | Exited h code => on_exit st h code
  | Cancel => on_cancel st
  end.

Definition steps (st : State) (evs : list Event) : State :=
  fold_left step evs st.

(** Modelled from the spec: the idle application at startup over a disk, its
    output directory taken from the loaded UserConfig. *)
Definition initial (cfg : UserConfig) (d : Disk) : State :=
  mkState "" (last_output_dir cfg) sdk29 debug None [] [] 0 true 0 []
          cfg d [].

(** Every run the orchestrator has created, the active one first. *)
Definition all_runs (st : State) : list BuildRun :=
  option_list (active st) ++ finished st.

Definition is_running (r : BuildRun) : bool :=
  match status r with running => true | _ => false end.

(** The run of a given subprocess handle. *)
Definition find_run (h : nat) (st : State) : option BuildRun :=
  List.find (λ r, handle r =? h) (all_runs st).

End Orchestration.

End Orchestrator.

Import Orchestrator.

(** ** Invariants of the orchestrator *)

(** The run whose progress the bar displays: the latest one. *)
Definition displayed_run (st : State) : option BuildRun := head (all_runs st).

(** The slot invariant: an active run is running, owns the only live child
    and keeps the trigger disabled; finished runs are terminal; handles are
    those already spawned; the bar shows the latest run. *)
Definition slot_inv (st : State) : Prop :=
  (∀ r, active st = Some r →
        status r = running ∧ children st = [handle r] ∧
        handle r < spawned st ∧ trigger_enabled st = false) ∧
  (active st = None → children st = []) ∧
  Forall (λ r, status r ≠ running ∧ handle r < spawned st) (finished st) ∧
  (∀ r, displayed_run st = Some r → progress_bar st = progress r).

(** Progress stays a percentage. *)
Definition bounded (st : State) : Prop :=
  ∀ r, active st = Some r → progress r ≤ 100.

(** ** A sample build session *)

(** The only script on disk. *)
Definition app_exists (p : string) : bool := bool_decide (p = "/home/u/app.py").

(** The markers the specification names, spread over the percentages. *)
Definition marker_table : list (string * nat) :=
  [("Downloading", 25); ("Compiling", 50); ("Packaging", 75); ("Done", 100)].

Definition home_config : UserConfig := mkConfig "/home/u" "/home/u/out" [].

(** The user picks the script and starts a build, whose child (handle 0)
    prints a line. *)
Definition building : list Event :=
  [SetScript "/home/u/app.py"; BuildAPK; Line 0 "Downloading kivy"].

(** The build goes on, falls back to a download, and ends well. *)
Definition finishing : list Event :=
  [Line 0 "Compiling main.py"; Line 0 "Downloading numpy"; Line 0 "Done";
   Exited 0 0].

Definition build_state : State :=
  Orchestrator.steps app_exists marker_table 3
    (initial home_config used_disk) building.

Definition first_run (lines : list string) (pct : nat) (s : Status) : BuildRun :=
  mkRun 0 (mkRequest "/home/u/app.py" "/home/u/out" sdk29 debug) lines pct s.

(** ** Descriptions used by the further properties *)

(** The menu a rebuild leaves for a given binding of [recent_projects]. *)
Definition rebuilt (rp : option pyval) : list menu_entry :=
  match rp with
  | Some (PList l) => entries (drop (length l - 5) l)
  | _ => []
  end.

(** The worlds that differ from [w] only in [recent_projects]. *)
Definition with_recent (w : World) (rp : option pyval) : World :=
  mkWorld (disk w)
          (mkApp (python_file (self w)) (output_dir (self w)) rp
                 (recent_menu (self w)) (status_var (self w)))
          (logged w).

(** The worlds that differ from [w] only in the menu. *)
Definition with_old_menu (w : World) (m : list menu_entry) : World :=
  mkWorld (disk w) (with_menu (self w) m) (logged w).

(** The disk once [~/.pyapkconverter] exists. *)
Definition with_dir (d : Disk) : Disk :=
  mkDisk true (dir_creatable d) (file d) (can_read d) (can_write d)
         (has_space d) (dir_searchable d).

(** The form as [setup_gui] leaves it and [__init__] returns it when nothing
    could be loaded. *)
Definition empty_form : App :=
  mkApp (PStr "") (PStr "") (Some (PList [])) [] "Ready".

(** A session over a configuration file that holds the empty JSON object. *)
Definition bare_world : World :=
  mkWorld (mkDisk true true (Some (Doc (PDict ∅))) true true true true)
          (mkApp (PStr "/home/u/app.py") (PStr "/tmp/out")
                 (Some (PList [project "demo" "/home/u/demo"]))
                 [mkEntry (PStr "demo") (project "demo" "/home/u/demo")]
                 "Ready")
          [].

(** A session over a configuration file that holds a JSON array. *)
Definition array_world : World :=
  mkWorld (mkDisk true true (Some (Doc (PList []))) true true true true)
          (mkApp (PStr "/home/u/app.py") (PStr "/tmp/out") None [] "Ready")
          [].

(** A disk without room for a write, holding an earlier configuration. *)
Definition full_world : World :=
  mkWorld (mkDisk true true
             (Some (Doc (config_dict "/home/u/src" "/home/u/out" [])))
             true true false true)
          (mkApp (PStr "/home/u/app.py") (PStr "/tmp/out") None [] "Ready")
          [].

(** A home directory in which nothing can be created. *)
Definition locked_disk : Disk := mkDisk false false None true true true true.

(** A directory that exists but refuses new files. *)
Definition readonly_disk : Disk :=
  mkDisk true true None true false true true.

(** A directory that exists but cannot be searched: no name in it can be
    looked up, opened or created. *)
Definition sealed_disk : Disk := mkDisk true false None false false true false.

(** Two projects, a record without name, and two more projects. *)
Definition mixed_projects : list pyval :=
  [project "p1" "/w/p1"; project "p2" "/w/p2";
   PDict (<["path" := PStr "/w/p3"]> ∅);
   project "p4" "/w/p4"; project "p5" "/w/p5"].

(** * Proofs *)

(** ** Lemmas on the primitives *)

Ltac unfold_m :=
  cbv [mbind M_bind bind mret M_ret ret raise try_except get_disk put_disk
       get_self put_self logger_error run outcome] in *.

Lemma length_entries items : length (entries items) ≤ length items.
Proof.
  induction items as [|p rest IH]; simpl; [lia|].
  destruct p as [| | | | |d]; simpl; try lia.
  destruct (d !! "name"); simpl; lia.
Qed.

Lemma entries_chars k s : entries (drop k (chars s)) = [].
Proof.
  revert k. induction s as [|c s IH]; intros [|k]; simpl; auto.
Qed.

Lemma entries_named items :
  loop_error items = None → map bound_project (entries items) = items.
Proof.
  induction items as [|p rest IH]; simpl; [done|].
  destruct p as [| | | | |d]; simpl; try done.
  destruct (d !! "name"); simpl; [|done].
  intros H. by rewrite IH.
Qed.

Lemma for_each_add_command items w :
  for_each add_command items w =
    (match loop_error items with Some e => inl e | None => inr () end,
     mkWorld (disk w) (with_menu (self w) (recent_menu (self w) ++ entries items))
             (logged w)).
Proof.
  revert w. induction items as [|p rest IH]; intros [d a lg].
  - simpl. unfold with_menu. rewrite app_nil_r. by destruct a.
  - simpl. unfold add_command, py_getitem. unfold_m.
    destruct p as [| | | | |m]; simpl;
      try (unfold with_menu; rewrite app_nil_r; by destruct a).
    destruct (m !! "name") as [n|] eqn:Hn; simpl.
    + rewrite IH. simpl. unfold with_menu. simpl. by rewrite <- app_assoc.
    + unfold with_menu. rewrite app_nil_r. by destruct a.
Qed.

(** What [update_recent_projects_menu] does when [recent_projects] is a list. *)
Lemma update_menu_list w l :
  recent_projects (self w) = Some (PList l) →
  update_recent_projects_menu w =
    (match loop_error (drop (length l - 5) l) with
     | Some e => inl e | None => inr () end,
     mkWorld (disk w) (with_menu (self w) (entries (drop (length l - 5) l)))
             (logged w)).
Proof.
  intros H. unfold update_recent_projects_menu. unfold_m. rewrite H.
  unfold py_last5. unfold_m. rewrite for_each_add_command. simpl.
  unfold with_menu. simpl. by rewrite H.
Qed.

Lemma update_menu_frame w :
  let w' := run update_recent_projects_menu w in
  disk w' = disk w ∧ logged w' = logged w ∧
  python_file (self w') = python_file (self w) ∧
  output_dir (self w') = output_dir (self w) ∧
  recent_projects (self w') = recent_projects (self w) ∧
  status_var (self w') = status_var (self w) ∧
  length (recent_menu (self w')) ≤ 5.
Proof.
  unfold update_recent_projects_menu. unfold_m.
  destruct (recent_projects (self w)) as [rp|] eqn:Hrp; simpl.
  2:{ repeat split; auto; lia. }
  unfold py_last5. unfold_m.
  destruct rp as [| | |s|l|m]; simpl; try (repeat split; auto; lia).
  - rewrite for_each_add_command. simpl.
    rewrite entries_chars. simpl. repeat split; auto; lia.
  - rewrite for_each_add_command. simpl. repeat split; auto.
    etrans; [apply length_entries|]. rewrite length_drop. lia.
Qed.

(** ** Lemmas on [save_config] and [load_saved_config] *)

Lemma load_fails_early w e :
  load_error (disk w) = Some e →
  load_saved_config w =
    (inr (), mkWorld (disk w) (self w)
                     (logged w ++ [ERROR "Failed to load config" e])).
Proof.
  unfold load_error, load_saved_config, open_and_load. unfold_m.
  destruct (file (disk w)) as [[v|]|]; destruct (can_read (disk w));
    simpl; intros H; try discriminate; by simplify_eq.
Qed.

Lemma load_dict w cfg :
  file (disk w) = Some (Doc (PDict cfg)) → can_read (disk w) = true →
  load_saved_config w =
    try_except update_recent_projects_menu
               (λ e, logger_error "Failed to load config" e)
               (mkWorld (disk w) (loaded_app (self w) cfg) (logged w)).
Proof.
  intros Hf Hr. unfold load_saved_config, open_and_load. unfold_m.
  rewrite Hf, Hr. reflexivity.
Qed.

Lemma load_not_dict w v :
  file (disk w) = Some (Doc v) → can_read (disk w) = true →
  (∀ cfg, v ≠ PDict cfg) →
  load_saved_config w =
    (inr (), mkWorld (disk w) (self w)
                     (logged w ++ [ERROR "Failed to load config" AttributeError])).
Proof.
  intros Hf Hr Hv. unfold load_saved_config, open_and_load. unfold_m.
  rewrite Hf, Hr. destruct v; try reflexivity. by destruct (Hv d).
Qed.

(** [load_saved_config] always returns, never touches the disk, the script
    field or the status text. *)
Lemma load_frame w :
  outcome load_saved_config w = inr () ∧
  disk (run load_saved_config w) = disk w ∧
  python_file (self (run load_saved_config w)) = python_file (self w) ∧
  status_var (self (run load_saved_config w)) = status_var (self w).
Proof.
  destruct (load_error (disk w)) as [e|] eqn:He.
  { unfold run, outcome. by rewrite (load_fails_early w e He). }
  unfold load_error in He.
  destruct (file (disk w)) as [[v|]|] eqn:Hf;
    destruct (can_read (disk w)) eqn:Hr; try discriminate.
  destruct v as [| | | | |cfg];
    try (unfold run, outcome; by rewrite (load_not_dict w _ Hf Hr)).
  unfold run, outcome. rewrite (load_dict w cfg Hf Hr).
  set (w0 := mkWorld _ _ _).
  pose proof (update_menu_frame w0) as (Hd & _ & Hp & _ & _ & Hs & _).
  unfold run in *. unfold try_except, logger_error.
  destruct (update_recent_projects_menu w0) as [[e|[]] w1]; simpl in *;
    rewrite Hd, Hp, Hs; done.
Qed.

(** Over a readable file that holds a saved UserConfig, the load puts its
    output directory into the form, whether or not the menu rebuild raises. *)
Lemma load_restores_output_dir w pd od rp :
  file (disk w) = Some (Doc (config_dict pd od rp)) →
  can_read (disk w) = true →
  output_dir (self (run load_saved_config w)) = PStr od.
Proof.
  intros Hf Hr. unfold run, config_dict in *. rewrite (load_dict w _ Hf Hr).
  set (w1 := mkWorld _ _ _).
  pose proof (update_menu_frame w1) as (_ & _ & _ & Ho & _).
  unfold run in Ho. unfold try_except, logger_error.
  destruct (update_recent_projects_menu w1) as [[e|[]] w2]; simpl in *;
    rewrite Ho; reflexivity.
Qed.

(** What a successful write leaves behind. *)
Lemma save_config_ok config w :
  dir_exists (disk w) = true → can_write (disk w) = true →
  has_space (disk w) = true →
  save_config config w = (inr (), with_file w (Some (Doc config))).
Proof.
  intros Hd Hw Hs. unfold save_config, open_and_dump, with_file. unfold_m.
  rewrite Hd, Hw, Hs. reflexivity.
Qed.

Lemma save_config_total config w : outcome (save_config config) w = inr ().
Proof.
  unfold save_config, open_and_dump. unfold_m.
  destruct (dir_exists (disk w)), (can_write (disk w)), (has_space (disk w));
    reflexivity.
Qed.

Lemma save_config_self config w :
  self (run (save_config config) w) = self w.
Proof.
  unfold save_config, open_and_dump. unfold_m.
  destruct (dir_exists (disk w)), (can_write (disk w)), (has_space (disk w));
    reflexivity.
Qed.

Lemma string_length_app (s t : string) :
  String.length (s +:+ t) = String.length s + String.length t.
Proof. induction s as [|c s IH]; simpl; [done|]. by rewrite IH. Qed.

Lemma joinpath_neq home : joinpath home "APK_Output" ≠ home.
Proof.
  unfold joinpath. intros H. apply (f_equal String.length) in H.
  repeat (destruct (decide _) as [->|_]; [discriminate|]).
  rewrite !string_length_app in H. simpl in H. lia.
Qed.

(** ** Lemmas on the construction *)

Lemma gui_ready_display env : gui_ready env = true → display env = true.
Proof. unfold gui_ready. by intros [? _]%andb_prop. Qed.

(** [setup_gui] returns exactly when every bound method is defined, and then
    leaves an empty menu and the status [Ready]. *)
Lemma setup_gui_cases env w :
  (forallb (defined env) handlers = true ∧
   setup_gui env w
     = (inr (), mkWorld (disk w)
                        (mkApp (python_file (self w)) (output_dir (self w))
                               (recent_projects (self w)) [] "Ready")
                        (logged w))) ∨
  (forallb (defined env) handlers = false ∧
   (setup_gui env w).1 = inl AttributeError ∧
   disk (setup_gui env w).2 = disk w ∧ logged (setup_gui env w).2 = logged w).
Proof.
  unfold setup_gui, create_menu, create_main_content, create_file_selectors,
    create_status_bar, bound_method, handlers.
  unfold_m. simpl.
  repeat match goal with
         | |- context [defined env ?n] =>
             destruct (defined env n) eqn:?; simpl;
             [|right; repeat split; reflexivity]
         end.
  left. split; reflexivity.
Qed.

Lemma setup_gui_ready env w :
  gui_ready env = true →
  setup_gui env w
    = (inr (), mkWorld (disk w)
                       (mkApp (python_file (self w)) (output_dir (self w))
                              (recent_projects (self w)) [] "Ready")
                       (logged w)).
Proof.
  unfold gui_ready. intros [_ Hall]%andb_prop.
  destruct (setup_gui_cases env w) as [[_ H]|[H _]]; [done|congruence].
Qed.

(** [init_config] leaves the object alone, and an existing file as it is. *)
Lemma init_config_frame home w :
  self (init_config home w).2 = self w ∧
  can_read (disk (init_config home w).2) = can_read (disk w) ∧
  (is_Some (file (disk w)) →
   file (disk (init_config home w).2) = file (disk w)).
Proof.
  unfold init_config, mkdir_parent, path_exists, save_config, open_and_dump.
  unfold_m. destruct w as [[de dc f r wr sp ds] a lg]. simpl.
  destruct de, dc, ds, f as [c|], wr, sp; simpl; repeat split; try done;
    by intros [? ?].
Qed.

(** [init_config] returns exactly when the directory is there, or can be
    created, and can be searched. *)
Lemma init_config_outcome home w :
  (init_config home w).1
    = if (dir_exists (disk w) || dir_creatable (disk w))
         && dir_searchable (disk w)
      then inr () else inl OSError.
Proof.
  unfold init_config, mkdir_parent, path_exists, save_config, open_and_dump.
  unfold_m. destruct w as [[de dc f r wr sp ds] a lg]. simpl.
  by destruct de, dc, ds, f as [c|], wr, sp.
Qed.

(** [__init__] once the window can be built: it returns when [init_config]
    does, with what [load_saved_config] makes of the blank form. *)
Lemma launch_ready env home d :
  gui_ready env = true →
  launch env home d
    = match init_config home (mkWorld d fresh_app []) with
      | (inl e, w1) => (inl e, w1)
      | (inr _, w1) =>
          (inr (), reassigned (run load_saved_config
                     (mkWorld (disk w1) blank_form (logged w1))))
      end.
Proof.
  intros Hgui. unfold launch, init. unfold_m.
  rewrite (gui_ready_display env Hgui). simpl.
  pose proof (init_config_frame home (mkWorld d fresh_app [])) as (Hs & _).
  destruct (init_config home _) as [[e|[]] w1]; [done|]. simpl in Hs.
  rewrite (setup_gui_ready env w1 Hgui). rewrite Hs. simpl.
  fold blank_form.
  pose proof (load_frame (mkWorld (disk w1) blank_form (logged w1))) as (Ho & _).
  unfold outcome, run in *.
  by destruct (load_saved_config _) as [[e|[]] w3].
Qed.

(** Whatever the environment, the disk [__init__] leaves is the one
    [init_config] leaves, or the one it found when there is no display. *)
Lemma launch_disk env home d :
  disk (launch env home d).2
    = if display env
      then disk (init_config home (mkWorld d fresh_app [])).2
      else d.
Proof.
  unfold launch, init. unfold_m. destruct (display env); [|done]. simpl.
  destruct (init_config home _) as [[e|[]] w1]; [done|]. simpl.
  destruct (setup_gui_cases env w1) as [[_ ->]|(_ & Ho & Hd & _)].
  - simpl. set (w2 := mkWorld (disk w1) _ (logged w1)).
    pose proof (load_frame w2) as (Ho & Hd & _). unfold outcome, run in *.
    by destruct (load_saved_config w2) as [[e|[]] w3].
  - by destruct (setup_gui env w1) as [[e|[]] w2]; simpl in *.
Qed.

(** ** The configuration store *)

(** C1, as the specification states it, fails: on the first launch of a
    user whose home is [/home/u], [init_config] does not create the file with
    the documented defaults, because it writes [/home/u/APK_Output], not the
    home directory, as last output directory. *)
Lemma first_launch_not_documented_defaults :
  file (disk (run (init_config "/home/u") (mkWorld blank_disk fresh_app [])))
    ≠ Some (Doc (documented_defaults "/home/u")).
Proof.
  intros H. vm_compute in H. discriminate H.
Qed.

(** What a first launch leaves on a disk that lets it through. *)
Lemma first_launch_world env home d :
  gui_ready env = true →
  file d = None → dir_exists d || dir_creatable d = true →
  dir_searchable d = true →
  can_read d = true → can_write d = true → has_space d = true →
  launch env home d
    = (inr (),
       mkWorld (mkDisk true (dir_creatable d) (Some (Doc (default_config home)))
                       true true true true)
               (mkApp (PStr "") (PStr (joinpath home "APK_Output"))
                      (Some (PList [])) [] "Ready")
               []).
Proof.
  intros Hgui. destruct d as [de dc f r wr sp ds]. simpl.
  intros -> Hdir -> -> -> ->. rewrite (launch_ready env home _ Hgui).
  destruct de, dc; try discriminate Hdir; reflexivity.
Qed.

(** C1, amended: on a first launch on a POSIX system (no configuration file;
    the directory there or creatable, and searchable; the file readable and
    writable; a display and the bound methods there, so that the window can be
    built)
    [init_config] creates the file before [load_saved_config] reads it, with
    the home directory as [last_python_dir], [str(Path.home() / 'APK_Output')]
    as [last_output_dir] and no recent project; the launch returns with that
    output directory in the form and nothing logged; launching again leaves
    the file and the loaded state as they are. *)
Theorem first_launch_creates_defaults (env : Env) (home : string) (d : Disk) :
  gui_ready env = true →
  posix_path_text home = true →
  file d = None →
  dir_exists d || dir_creatable d = true →
  dir_searchable d = true →
  can_read d = true → can_write d = true → has_space d = true →
  let created := run (init_config home) (mkWorld d fresh_app []) in
  let w1 := (launch env home d).2 in
  let w2 := (launch env home (disk w1)).2 in
  file (disk created)
    = Some (Doc (config_dict home (joinpath home "APK_Output") [])) ∧
  (launch env home d).1 = inr () ∧
  file (disk w1) = file (disk created) ∧
  output_dir (self w1) = PStr (joinpath home "APK_Output") ∧
  recent_projects (self w1) = Some (PList []) ∧
  recent_menu (self w1) = [] ∧
  logged w1 = [] ∧
  (launch env home (disk w1)).1 = inr () ∧
  disk w2 = disk w1 ∧
  self w2 = self w1.
Proof.
  intros Hgui _ Hfile Hdir Hsearch Hr Hw Hs.
  rewrite (first_launch_world env home d Hgui Hfile Hdir Hsearch Hr Hw Hs).
  cbn [fst snd disk].
  assert (Hagain :
    launch env home
      (mkDisk true (dir_creatable d) (Some (Doc (default_config home)))
              true true true true)
    = (inr (),
       mkWorld (mkDisk true (dir_creatable d) (Some (Doc (default_config home)))
                       true true true true)
               (mkApp (PStr "") (PStr (joinpath home "APK_Output"))
                      (Some (PList [])) [] "Ready")
               [])).
  { rewrite (launch_ready env home _ Hgui). reflexivity. }
  rewrite Hagain. cbn [fst snd disk self].
  destruct d as [de dc f r wr sp ds]. simpl in *. subst.
  destruct de, dc; try discriminate Hdir; repeat split; reflexivity.
Qed.

Lemma first_launch_creates_defaults_witness :
  file (disk (run (init_config "/home/u") (mkWorld blank_disk fresh_app [])))
    = Some (Doc (config_dict "/home/u" "/home/u/APK_Output" [])) ∧
  output_dir (self (launch ready_env "/home/u" blank_disk).2)
    = PStr "/home/u/APK_Output".
Proof.
  pose proof (first_launch_creates_defaults ready_env "/home/u" blank_disk
                eq_refl eq_refl eq_refl eq_refl eq_refl eq_refl eq_refl
                eq_refl) as H.
  split; [exact (proj1 H) | exact (proj1 (proj2 (proj2 (proj2 H))))].
Defined.

(** C2, as stated, fails: two configurations that differ in
    [last_python_dir] leave the application in the same state when saved and
    loaded back, so that field is not restored by the load. *)
Lemma save_load_forgets_last_python_dir :
  config_dict "/home/u/src" "/out" [] ≠ config_dict "/home/u/other" "/out" [] ∧
  self (run (save_config (config_dict "/home/u/src" "/out" []) ;;
             load_saved_config) sample_world)
  = self (run (save_config (config_dict "/home/u/other" "/out" []) ;;
               load_saved_config) sample_world).
Proof.
  split.
  - intros H. vm_compute in H. discriminate H.
  - vm_compute. reflexivity.
Qed.

(** C2, amended: when the file can be written and read, saving a
    configuration and loading it back leaves the whole document in the file
    and restores [last_output_dir] into the output-directory field and
    [recent_projects] into the in-memory list exactly; [last_python_dir] is
    restored to no field, the script field keeps its value. *)
Theorem save_then_load_restores
    (last_python_dir last_output_dir : string) (projects : list pyval)
    (w : World) :
  dir_exists (disk w) = true → can_write (disk w) = true →
  has_space (disk w) = true → can_read (disk w) = true →
  let config := config_dict last_python_dir last_output_dir projects in
  let w' := run (save_config config ;; load_saved_config) w in
  file (disk w') = Some (Doc config) ∧
  output_dir (self w') = PStr last_output_dir ∧
  recent_projects (self w') = Some (PList projects) ∧
  python_file (self w') = python_file (self w).
Proof.
  intros Hd Hw Hs Hr config w'.
  assert (Hw' : w' = run load_saved_config (with_file w (Some (Doc config)))).
  { subst w'. unfold run at 1. cbv [mbind M_bind bind].
    by rewrite (save_config_ok config w Hd Hw Hs). }
  set (w0 := with_file w (Some (Doc config))) in *.
  pose proof (load_frame w0) as (_ & Hdisk & Hpy & _).
  rewrite Hw'. rewrite Hdisk, Hpy. split; [done|]. split; [|split; [|done]].
  - unfold run. unfold config, config_dict.
    rewrite (load_dict w0 _ eq_refl Hr).
    set (w1 := mkWorld _ _ _).
    pose proof (update_menu_frame w1) as (_ & _ & _ & Ho & _).
    unfold run in Ho. unfold try_except, logger_error.
    destruct (update_recent_projects_menu w1) as [[e|[]] w2]; simpl in *;
      rewrite Ho; reflexivity.
  - unfold run. unfold config, config_dict.
    rewrite (load_dict w0 _ eq_refl Hr).
    set (w1 := mkWorld _ _ _).
    pose proof (update_menu_frame w1) as (_ & _ & _ & _ & Hp & _).
    unfold run in Hp. unfold try_except, logger_error.
    destruct (update_recent_projects_menu w1) as [[e|[]] w2]; simpl in *;
      rewrite Hp; reflexivity.
Qed.

Lemma save_then_load_restores_witness :
  output_dir (self (run (save_config
      (config_dict "/home/u/src" "/out" [project "demo" "/home/u/demo"]) ;;
      load_saved_config) sample_world)) = PStr "/out" ∧
  recent_projects (self (run (save_config
      (config_dict "/home/u/src" "/out" [project "demo" "/home/u/demo"]) ;;
      load_saved_config) sample_world))
    = Some (PList [project "demo" "/home/u/demo"]).
Proof.
  pose proof (save_then_load_restores "/home/u/src" "/out"
                [project "demo" "/home/u/demo"] sample_world
                eq_refl eq_refl eq_refl eq_refl) as H.
  split; [exact (proj1 (proj2 H)) | exact (proj1 (proj2 (proj2 H)))].
Defined.

(** ** The recent-projects menu *)

Lemma loop_error_named items :
  Forall (λ p, name_error p = None) items → loop_error items = None.
Proof.
  induction 1 as [|p rest Hp _ IH]; simpl; [done|]. by rewrite Hp.
Qed.

Lemma entries_labels items :
  Forall (λ e, name_of (bound_project e) = Some (label e)) (entries items).
Proof.
  induction items as [|p rest IH]; simpl; [constructor|].
  destruct p as [| | | | |d]; try constructor.
  destruct (d !! "name") eqn:Hn; constructor; simpl; done.
Qed.

(** C3: whatever [recent_projects] holds, the menu rebuilt by
    [update_recent_projects_menu] has at most five commands; and when the
    recorded list [l] is made of projects that have a name, the rebuild
    returns normally and the menu shows exactly the last [min 5 (length l)]
    projects of the list, in order, each under its own name. *)
Theorem recent_menu_shows_last_five (w : World) :
  let w' := run update_recent_projects_menu w in
  length (recent_menu (self w')) ≤ 5 ∧
  ∀ l : list pyval,
    recent_projects (self w) = Some (PList l) →
    Forall (λ p, name_error p = None) l →
    outcome update_recent_projects_menu w = inr () ∧
    length (recent_menu (self w')) = min 5 (length l) ∧
    (∃ older, l = older ++ map bound_project (recent_menu (self w'))) ∧
    Forall (λ e, name_of (bound_project e) = Some (label e))
           (recent_menu (self w')).
Proof.
  intros w'. split; [apply (update_menu_frame w)|].
  intros l Hl Hnamed. subst w'. unfold run, outcome.
  rewrite (update_menu_list w l Hl). cbn [fst snd self recent_menu with_menu].
  assert (Hd : loop_error (drop (length l - 5) l) = None).
  { apply loop_error_named. by apply Forall_drop. }
  rewrite Hd. split; [done|].
  assert (Hm : map bound_project (entries (drop (length l - 5) l))
               = drop (length l - 5) l) by by apply entries_named.
  split; [|split].
  - rewrite <- (length_map bound_project), Hm, length_drop. lia.
  - exists (take (length l - 5) l). by rewrite Hm, take_drop.
  - apply entries_labels.
Qed.

Lemma recent_menu_shows_last_five_witness :
  length (recent_menu (self (run update_recent_projects_menu
    (mkWorld blank_disk
             (mkApp (PStr "") (PStr "") (Some (PList seven_projects)) [] "Ready")
             [])))) = min 5 (length seven_projects).
Proof.
  refine (proj1 (proj2 (proj2 (recent_menu_shows_last_five
    (mkWorld blank_disk
             (mkApp (PStr "") (PStr "") (Some (PList seven_projects)) [] "Ready")
             [])) seven_projects eq_refl _))).
  unfold seven_projects. repeat constructor.
Defined.

Example recent_menu_of_seven :
  map label (recent_menu (self (run update_recent_projects_menu
    (mkWorld blank_disk
             (mkApp (PStr "") (PStr "") (Some (PList seven_projects)) [] "Ready")
             []))))
  = [PStr "p3"; PStr "p4"; PStr "p5"; PStr "p6"; PStr "p7"].
Proof. vm_compute. reflexivity. Qed.

(** ** Construction of the application object *)

(** When [__init__] returns, the object it leaves is the one
    [load_saved_config] produced from the blank form, with [recent_projects]
    rebound. *)
Lemma launch_returns env home d :
  (launch env home d).1 = inr () →
  ∃ w1, init_config home (mkWorld d fresh_app []) = (inr (), w1) ∧
        self w1 = fresh_app ∧
        (is_Some (file d) → file (disk w1) = file d) ∧
        can_read (disk w1) = can_read d ∧
        (launch env home d).2 =
          reassigned (run load_saved_config
            (mkWorld (disk w1) blank_form (logged w1))).
Proof.
  unfold launch, init. unfold_m.
  destruct (display env); [|discriminate]. simpl.
  pose proof (init_config_frame home (mkWorld d fresh_app []))
    as (Hs & Hr & Hf).
  destruct (init_config home _) as [[e|[]] w1]; [discriminate|].
  simpl in Hs, Hr, Hf.
  destruct (setup_gui_cases env w1) as [[_ ->]|(_ & Ho & _)].
  2:{ destruct (setup_gui env w1) as [[e|[]] w2]; simpl in *; discriminate. }
  intros _. exists w1. repeat (split; [done|]).
  rewrite Hs. simpl. fold blank_form.
  pose proof (load_frame (mkWorld (disk w1) blank_form (logged w1))) as (Ho & _).
  unfold outcome, run in *.
  by destruct (load_saved_config _) as [[e|[]] w3].
Qed.

(** [__init__] returns only where the window can be built. *)
Lemma launch_returns_ready env home d :
  (launch env home d).1 = inr () → gui_ready env = true.
Proof.
  unfold launch, init, gui_ready. unfold_m.
  destruct (display env); [|discriminate]. simpl.
  destruct (init_config home _) as [[e|[]] w1]; [discriminate|].
  destruct (setup_gui_cases env w1) as [[Hall _]|(_ & Ho & _)]; [done|].
  destruct (setup_gui env w1) as [[e|[]] w2]; simpl in *; discriminate.
Qed.

Lemma load_dict_menu w cfg l :
  file (disk w) = Some (Doc (PDict cfg)) → can_read (disk w) = true →
  cfg !! "recent_projects" = Some (PList l) →
  recent_menu (self (run load_saved_config w))
    = entries (drop (length l - 5) l).
Proof.
  intros Hf Hr Hl. unfold run. rewrite (load_dict w cfg Hf Hr).
  set (w0 := mkWorld _ _ _).
  assert (H0 : recent_projects (self w0) = Some (PList l)).
  { subst w0. simpl. by rewrite Hl. }
  unfold try_except, logger_error. rewrite (update_menu_list w0 l H0).
  by destruct (loop_error _).
Qed.

(** C4, as stated, fails in its second half: where construction completes
    (a display and the bound methods being there), the "Recent Projects" menu
    still shows the persisted project after the reassignment, although the
    in-memory list is empty. *)
Lemma menu_outlives_reassignment :
  (launch ready_env "/home/u" used_disk).1 = inr () ∧
  recent_projects (self (launch ready_env "/home/u" used_disk).2)
    = Some (PList []) ∧
  recent_menu (self (launch ready_env "/home/u" used_disk).2)
    = [mkEntry (PStr "demo") (project "demo" "/home/u/demo")].
Proof. repeat split; vm_compute; reflexivity. Qed.

(** C4, amended: [__init__] returns only where a display and the methods
    bound to the widgets are there; when it returns, [recent_projects] is the
    empty list whatever the file holds; the "Recent Projects" menu, rebuilt by
    [load_saved_config] before the reassignment and not after it, still shows
    the last five persisted entries, and only a later rebuild empties it. *)
Theorem init_resets_recent_projects (env : Env) (home : string) (d : Disk) :
  (launch env home d).1 = inr () →
  let w := (launch env home d).2 in
  gui_ready env = true ∧
  recent_projects (self w) = Some (PList []) ∧
  (∀ cfg l, file d = Some (Doc (PDict cfg)) → can_read d = true →
            cfg !! "recent_projects" = Some (PList l) →
            recent_menu (self w) = entries (drop (length l - 5) l)) ∧
  recent_menu (self (run update_recent_projects_menu w)) = [].
Proof.
  intros Hret w.
  destruct (launch_returns env home d Hret) as (w1 & _ & _ & Hf & Hr & Hw).
  subst w. rewrite Hw. split; [by apply (launch_returns_ready env home d)|].
  split; [done|]. split.
  - intros cfg l Hfile Hread Hl. simpl.
    apply (load_dict_menu _ cfg l); simpl; [|congruence|done].
    rewrite Hf; [done|]. rewrite Hfile. by eexists.
  - set (w3 := run load_saved_config _).
    unfold run. by rewrite (update_menu_list (reassigned w3) [] eq_refl).
Qed.

Lemma init_resets_recent_projects_witness :
  recent_projects (self (launch ready_env "/home/u" used_disk).2)
    = Some (PList []) ∧
  recent_menu (self (run update_recent_projects_menu
                         (launch ready_env "/home/u" used_disk).2)) = [].
Proof.
  pose proof (init_resets_recent_projects ready_env "/home/u" used_disk
                eq_refl) as H.
  split; [exact (proj1 (proj2 H)) | exact (proj2 (proj2 (proj2 H)))].
Defined.

(** ** Persistence errors *)

(** C5, as stated, fails on load failure: no default-valued configuration
    reaches the caller.  Launched over a corrupt file (with a display and the
    bound methods there) the form's output directory is the empty string,
    neither the default [init_config] writes nor the documented one; and
    [load_saved_config] called on a session leaves the output directory and the
    recent projects it finds, while the parse error is logged. *)
Lemma load_failure_substitutes_no_default :
  output_dir (self (launch ready_env "/home/u" corrupt_disk).2) = PStr "" ∧
  PStr "" ≠ PStr (joinpath "/home/u" "APK_Output") ∧
  PStr "" ≠ PStr "/home/u" ∧
  logged (run load_saved_config busy_world)
    = [ERROR "Failed to load config" JSONDecodeError] ∧
  output_dir (self (run load_saved_config busy_world)) = PStr "/tmp/out" ∧
  recent_projects (self (run load_saved_config busy_world))
    = Some (PList [project "demo" "/home/u/demo"]).
Proof. repeat split; try discriminate; vm_compute; reflexivity. Qed.

(** C5, amended: neither [save_config] nor [load_saved_config] propagates
    an exception.  When opening or parsing the file fails, [load_saved_config]
    logs the error and leaves the disk and every attribute as they were (no
    default is substituted).  When the file cannot be opened for writing,
    [save_config] logs the error and leaves the disk and the attributes as they
    were; a write that fails after the file was opened is logged as well and
    leaves the attributes as they were. *)
Theorem config_io_fails_soft (w : World) (config : pyval) :
  outcome (save_config config) w = inr () ∧
  outcome load_saved_config w = inr () ∧
  (∀ e, load_error (disk w) = Some e →
        run load_saved_config w
          = mkWorld (disk w) (self w)
                    (logged w ++ [ERROR "Failed to load config" e])) ∧
  (dir_exists (disk w) && can_write (disk w) = false →
   run (save_config config) w
     = mkWorld (disk w) (self w)
               (logged w ++ [ERROR "Failed to save config" OSError])) ∧
  (dir_exists (disk w) && can_write (disk w) = true →
   has_space (disk w) = false →
   self (run (save_config config) w) = self w ∧
   logged (run (save_config config) w)
     = logged w ++ [ERROR "Failed to save config" OSError]).
Proof.
  split; [apply save_config_total|].
  split; [apply load_frame|].
  split; [|split].
  - intros e He. unfold run. by rewrite (load_fails_early w e He).
  - intros H. unfold save_config, open_and_dump. unfold_m. by rewrite H.
  - intros H Hs. unfold save_config, open_and_dump. unfold_m.
    by rewrite H, Hs.
Qed.

Lemma config_io_fails_soft_witness :
  run load_saved_config busy_world
    = mkWorld (disk busy_world) (self busy_world)
              (logged busy_world ++ [ERROR "Failed to load config" JSONDecodeError]).
Proof.
  exact (proj1 (proj2 (proj2 (config_io_fails_soft busy_world PNone)))
               JSONDecodeError eq_refl).
Defined.

(** ** The script field *)

(** Rebuilding the menu does not look at the disk. *)
Lemma update_menu_any_disk d d' a lg :
  (update_recent_projects_menu (mkWorld d a lg)).1
    = (update_recent_projects_menu (mkWorld d' a lg)).1 ∧
  self (update_recent_projects_menu (mkWorld d a lg)).2
    = self (update_recent_projects_menu (mkWorld d' a lg)).2 ∧
  logged (update_recent_projects_menu (mkWorld d a lg)).2
    = logged (update_recent_projects_menu (mkWorld d' a lg)).2.
Proof.
  unfold update_recent_projects_menu, py_last5. unfold_m. simpl.
  destruct (recent_projects a) as [[| | |s|l|m]|]; simpl; try done;
    rewrite !for_each_add_command; simpl; done.
Qed.

(** C6: [load_saved_config] never changes the script field, and what it
    leaves in the object and in the log does not depend on the
    [last_python_dir] entry of the file, be it set to any value or removed;
    the entry is there because [init_config] saves it. *)
Theorem load_ignores_last_python_dir (w : World) :
  python_file (self (run load_saved_config w)) = python_file (self w) ∧
  (∀ (cfg : gmap string pyval) (v : pyval),
     let w1 := run load_saved_config
                 (with_file w (Some (Doc (PDict (<["last_python_dir" := v]> cfg))))) in
     let w2 := run load_saved_config
                 (with_file w (Some (Doc (PDict (delete "last_python_dir" cfg))))) in
     self w1 = self w2 ∧ logged w1 = logged w2) ∧
  (∀ home, ∃ cfg, default_config home = PDict cfg ∧
                  cfg !! "last_python_dir" = Some (PStr home)).
Proof.
  split; [apply load_frame|]. split.
  - intros cfg v. simpl. unfold run.
    destruct (can_read (disk w)) eqn:Hr.
    + rewrite (load_dict (with_file w _) _ eq_refl Hr).
      rewrite (load_dict (with_file w _) _ eq_refl Hr).
      unfold loaded_app.
      rewrite !lookup_insert_ne, !lookup_delete_ne by done.
      simpl. set (a := mkApp _ _ _ _ _).
      unfold try_except, logger_error.
      match goal with
      | |- context [update_recent_projects_menu (mkWorld ?d1 a ?lg)] =>
          match goal with
          | |- context [update_recent_projects_menu (mkWorld ?d2 a lg)] =>
              lazymatch d1 with d2 => fail | _ =>
                pose proof (update_menu_any_disk d1 d2 a lg) as (Ho & Hs & Hl)
              end
          end
      end.
      destruct (update_recent_projects_menu _) as [[e1|[]] u1];
        destruct (update_recent_projects_menu _) as [[e2|[]] u2];
        simpl in *; simplify_eq; by rewrite Hs, Hl.
    + rewrite (load_fails_early (with_file w _) OSError).
      2:{ unfold load_error. simpl. by rewrite Hr. }
      rewrite (load_fails_early (with_file w _) OSError).
      2:{ unfold load_error. simpl. by rewrite Hr. }
      done.
  - intros home. eexists. split; reflexivity.
Qed.

(** ** The build orchestrator *)

Section OrchestratorProofs.

Variable exists_on_disk : string → bool.
Variable markers : list (string * nat).
Variable tail_n : nat.

Local Abbreviation step := (Orchestrator.step exists_on_disk markers tail_n).
Local Abbreviation steps := (Orchestrator.steps exists_on_disk markers tail_n).
Local Abbreviation start_build := (Orchestrator.start_build exists_on_disk).
Local Abbreviation form_valid := (Orchestrator.form_valid exists_on_disk).

Lemma filter_self h : List.filter (λ h', negb (h' =? h)) [h] = [].
Proof. simpl. by rewrite Nat.eqb_refl. Qed.

Lemma slot_inv_initial cfg d : slot_inv (initial cfg d).
Proof.
  unfold slot_inv, initial, displayed_run, all_runs. simpl.
  repeat split; done.
Qed.

Lemma slot_inv_step st ev : slot_inv st → slot_inv (step st ev).
Proof.
  intros Hinv. pose proof Hinv as (Ha & Hn & Hf & Hb).
  destruct ev as [p|p| |h text|h code|]; simpl.
  - exact Hinv.
  - exact Hinv.
  - unfold Orchestrator.start_build.
    destruct (negb (form_valid st)); [exact Hinv|].
    destruct (active st) as [r|] eqn:Hact; [exact Hinv|].
    unfold slot_inv, displayed_run, all_runs. simpl.
    repeat split; intros; simplify_eq/=; try done; try lia.
    + by rewrite (Hn eq_refl).
    + eapply Forall_impl; [exact Hf|]. simpl. intros r [? ?]. split; [done|lia].
  - unfold on_line, active_child.
    destruct (active st) as [r|] eqn:Hact; [|exact Hinv].
    destruct (handle r =? h); [|exact Hinv].
    destruct (Ha r eq_refl) as (Hs & Hc & Hh & Ht).
    unfold slot_inv, displayed_run, all_runs. simpl.
    repeat split; intros; simplify_eq/=; done.
  - unfold on_exit, active_child.
    destruct (active st) as [r|] eqn:Hact; [|exact Hinv].
    destruct (handle r =? h); [|exact Hinv].
    destruct (Ha r eq_refl) as (Hs & Hc & Hh & Ht).
    assert (Hbar : progress_bar st = progress r).
    { apply Hb. unfold displayed_run, all_runs. by rewrite Hact. }
    destruct (decide (code = 0%Z));
      unfold slot_inv, displayed_run, all_runs; simpl;
      rewrite Hc, filter_self;
      repeat split; intros; simplify_eq/=; try done;
      by constructor.
  - unfold on_cancel. destruct (active st) as [r|] eqn:Hact; [|exact Hinv].
    destruct (Ha r eq_refl) as (Hs & Hc & Hh & Ht).
    assert (Hbar : progress_bar st = progress r).
    { apply Hb. unfold displayed_run, all_runs. by rewrite Hact. }
    unfold slot_inv, displayed_run, all_runs; simpl.
    rewrite Hc, filter_self.
    repeat split; intros; simplify_eq/=; try done.
    by constructor.
Qed.

Lemma slot_inv_steps st evs : slot_inv st → slot_inv (steps st evs).
Proof.
  revert st. induction evs as [|ev evs IH]; intros st H; [done|].
  simpl. apply IH. by apply slot_inv_step.
Qed.

Lemma filter_terminal (l : list BuildRun) :
  Forall (λ r, status r ≠ running) l → List.filter is_running l = [].
Proof.
  induction 1 as [|r l Hr _ IH]; simpl; [done|].
  unfold is_running at 1. by destruct (status r).
Qed.

(** C7: in every state reached from startup at most one BuildRun is
    running and at most one child process is alive; and "Build APK" invoked
    while a BuildRun is active starts nothing: the slot, the finished runs, the
    live children and the spawn count stay as they are, and the user is told
    that a build is already running or that the form is invalid. *)
Theorem at_most_one_build_active (cfg : UserConfig) (d : Disk)
    (evs : list Event) :
  let st := steps (initial cfg d) evs in
  length (List.filter is_running (all_runs st)) ≤ 1 ∧
  length (children st) ≤ 1 ∧
  (is_Some (active st) →
   let st' := step st BuildAPK in
   active st' = active st ∧ finished st' = finished st ∧
   children st' = children st ∧ spawned st' = spawned st ∧
   (messages st' = messages st ++ [AlreadyRunning] ∨
    messages st' = messages st ++ [ValidationError])).
Proof.
  intros st.
  assert (Hinv : slot_inv st) by apply slot_inv_steps, slot_inv_initial.
  destruct Hinv as (Ha & Hn & Hf & _).
  assert (Hfin : List.filter is_running (finished st) = []).
  { apply filter_terminal. eapply Forall_impl; [exact Hf|]. by intros r [? ?]. }
  split; [|split].
  - unfold all_runs. rewrite List.filter_app, Hfin, app_nil_r.
    destruct (active st) as [r|]; simpl; [|lia].
    destruct (is_running r); simpl; lia.
  - destruct (active st) as [r|] eqn:Hact.
    + destruct (Ha r eq_refl) as (_ & -> & _). simpl. lia.
    + rewrite (Hn eq_refl). simpl. lia.
  - intros [r Hr]. simpl. unfold Orchestrator.start_build.
    destruct (negb (form_valid st)); simpl; [by auto 10|].
    rewrite Hr. simpl. by auto 10.
Qed.

(** C8: "Build APK" starts a build only if the script path and the output
    directory are non-empty and the script exists on disk; on every form that
    violates one of the three it surfaces a validation message and changes
    nothing else. *)
Theorem build_needs_valid_form (st : State) :
  let st' := step st BuildAPK in
  (spawned st' ≠ spawned st →
   script_path st ≠ "" ∧ output_path st ≠ "" ∧
   exists_on_disk (script_path st) = true) ∧
  (script_path st = "" ∨ output_path st = "" ∨
   exists_on_disk (script_path st) = false →
   st' = say st ValidationError ∧
   messages st' = messages st ++ [ValidationError] ∧
   active st' = active st ∧ children st' = children st ∧
   spawned st' = spawned st).
Proof.
  simpl. unfold Orchestrator.start_build, Orchestrator.form_valid.
  split.
  - destruct (decide (script_path st = "")) as [He|He];
      [rewrite bool_decide_eq_true_2 by done; simpl; done|].
    destruct (decide (output_path st = "")) as [Ho|Ho];
      [rewrite (bool_decide_eq_true_2 (output_path st = "")) by done;
       rewrite andb_false_r; simpl; done|].
    destruct (exists_on_disk (script_path st));
      [done|rewrite andb_false_r; simpl; done].
  - intros H.
    assert (Hv : negb (bool_decide (script_path st = "")) &&
                 negb (bool_decide (output_path st = "")) &&
                 exists_on_disk (script_path st) = false).
    { destruct H as [H|[H|H]].
      - by rewrite bool_decide_eq_true_2.
      - rewrite (bool_decide_eq_true_2 (output_path st = "")) by done.
        by rewrite andb_false_r.
      - rewrite H. by rewrite andb_false_r. }
    rewrite Hv. simpl. done.
Qed.

(** The surfaced tail is the end of the log: as many lines as asked for, or
    the whole log when it is shorter. *)
Lemma lastn_suffix {A} (n : nat) (l : list A) :
  ∃ earlier, l = earlier ++ lastn n l ∧
             length (lastn n l) = min n (length l) ∧
             (0 < n → last (lastn n l) = last l).
Proof.
  unfold lastn. exists (take (length l - n) l).
  split; [by rewrite take_drop|]. split; [rewrite length_drop; lia|].
  intros Hn. destruct l as [|x l] using rev_ind; [done|].
  rewrite length_app. simpl.
  replace (length l + 1 - n) with (length l - (n - 1)) by lia.
  rewrite drop_app_le by lia. by rewrite !last_snoc.
Qed.

(** C9: when the child process of the active BuildRun exits, its exit code
    alone decides the terminal status, and the exit of any other child changes
    nothing.  Code 0: the run ends [succeeded] with its progress and the bar at
    100, the success is shown, the output directory of the request is recorded
    into the UserConfig (its other fields kept) and the UserConfig is
    persisted: [save_config] is run on its document, so that on a disk that
    accepts the write the file holds exactly that document, nothing is logged,
    and a later [load_saved_config] puts the output directory back into the
    form.  Any other code: the run ends [failed], the failure message carries
    the end of its log, the last [tail_n] lines or the whole log when it is
    shorter, hence its last line as soon as [tail_n] is positive, and the build
    trigger is enabled again.  Either way the slot is released. *)
Theorem exit_code_decides_status (st : State) (r : BuildRun) (code : Z) :
  active st = Some r →
  let st' := step st (Exited (handle r) code) in
  active st' = None ∧
  (∀ h, h ≠ handle r → step st (Exited h code) = st) ∧
  ∃ r', finished st' = r' :: finished st ∧
        handle r' = handle r ∧ log_lines r' = log_lines r ∧
        (status r' = succeeded ↔ code = 0%Z) ∧
        (status r' = failed ↔ code ≠ 0%Z) ∧
        (code = 0%Z →
         progress r' = 100 ∧ progress_bar st' = 100 ∧
         messages st' = messages st ++ [BuildSucceeded] ∧
         last_output_dir (user_config st') = req_output_dir (request r) ∧
         last_python_dir (user_config st')
           = last_python_dir (user_config st) ∧
         cfg_recent (user_config st') = cfg_recent (user_config st) ∧
         (config_disk st', app_log st')
           = persist (user_config st') (config_disk st) (app_log st) ∧
         (dir_exists (config_disk st) = true →
          can_write (config_disk st) = true →
          has_space (config_disk st) = true →
          file (config_disk st') = Some (Doc (config_doc (user_config st'))) ∧
          app_log st' = app_log st ∧
          (can_read (config_disk st) = true →
           ∀ w, disk w = config_disk st' →
                output_dir (self (run load_saved_config w))
                  = PStr (req_output_dir (request r))))) ∧
        (code ≠ 0%Z →
         trigger_enabled st' = true ∧
         ∃ tail earlier,
           messages st' = messages st ++ [BuildFailed tail] ∧
           log_lines r = earlier ++ tail ∧
           length tail = min tail_n (length (log_lines r)) ∧
           (0 < tail_n → last tail = last (log_lines r))).
Proof.
  intros Hact. simpl. unfold on_exit, active_child. rewrite Hact.
  rewrite Nat.eqb_refl.
  split; [by destruct (decide (code = 0%Z))|].
  split.
  { intros h Hh. destruct (Nat.eqb_spec (handle r) h) as [Heq|_]; [|done].
    by destruct Hh. }
  destruct (decide (code = 0%Z)) as [Hc|Hc]; simpl.
  - eexists. split; [done|]. simpl.
    repeat split; try done.
    + unfold persist, run. simpl.
      rewrite (save_config_ok _ (mkWorld (config_disk st) fresh_app (app_log st)))
        by done.
      done.
    + unfold persist, run. simpl.
      rewrite (save_config_ok _ (mkWorld (config_disk st) fresh_app (app_log st)))
        by done.
      done.
    + intros Hread w Hw.
      apply (load_restores_output_dir w
               (last_python_dir (user_config st)) _
               (cfg_recent (user_config st))).
      * rewrite Hw. unfold persist, run. simpl.
        rewrite (save_config_ok _
                   (mkWorld (config_disk st) fresh_app (app_log st))) by done.
        done.
      * rewrite Hw. unfold persist, run. simpl.
        rewrite (save_config_ok _
                   (mkWorld (config_disk st) fresh_app (app_log st))) by done.
        done.
  - eexists. split; [done|]. simpl.
    repeat split; try done.
    destruct (lastn_suffix tail_n (log_lines r)) as (earlier & He & Hl & Hlast).
    by exists (lastn tail_n (log_lines r)), earlier.
Qed.

Section Percentages.

(** The table holds percentages. *)
Hypothesis markers_pct : Forall (λ m, snd m ≤ 100) markers.

Lemma marker_pct_bound text pct :
  marker_pct markers text = Some pct → pct ≤ 100.
Proof.
  unfold marker_pct. intros H.
  destruct (List.find _ markers) as [m|] eqn:Hm; [|discriminate].
  apply List.find_some in Hm as [Hin _]. simpl in H. injection H as <-.
  rewrite Forall_forall in markers_pct. apply markers_pct.
  by apply list_elem_of_In.
Qed.

Lemma bounded_step st ev : bounded st → bounded (step st ev).
Proof.
  intros Hst. pose proof Hst as Hb. unfold bounded in Hb |- *.
  destruct ev as [p|p| |h text|h code|]; simpl; try exact Hst.
  - unfold Orchestrator.start_build.
    destruct (negb (form_valid st)); [exact Hst|].
    destruct (active st) as [r|] eqn:Hact; [exact Hst|].
    simpl. intros r [= <-]. simpl. lia.
  - unfold on_line, active_child.
    destruct (active st) as [r|] eqn:Hact; [|exact Hst].
    destruct (handle r =? h); [|exact Hst].
    simpl. intros r' [= <-]. simpl. specialize (Hb r eq_refl).
    destruct (marker_pct markers text) as [pct|] eqn:Hp; [|done].
    apply marker_pct_bound in Hp. lia.
  - unfold on_exit, active_child.
    destruct (active st) as [r|] eqn:Hact; [|exact Hst].
    destruct (handle r =? h); [|exact Hst].
    by destruct (decide (code = 0%Z)).
  - unfold on_cancel. destruct (active st) as [r|] eqn:Hact; [done|exact Hst].
Qed.

Lemma bounded_steps st evs : bounded st → bounded (steps st evs).
Proof.
  revert st. induction evs as [|ev evs IH]; intros st H; [done|].
  simpl. apply IH. by apply bounded_step.
Qed.

(** One event never lowers the progress of a run. *)
Lemma find_run_step st ev h r :
  slot_inv st → bounded st →
  find_run h st = Some r →
  ∃ r', find_run h (step st ev) = Some r' ∧ progress r ≤ progress r'.
Proof.
  intros (Ha & Hn & Hf & _) Hb. unfold find_run, all_runs.
  assert (Hsame : ∀ o : option BuildRun,
            o = Some r → ∃ r', o = Some r' ∧ progress r ≤ progress r')
    by (intros o ->; eauto).
  destruct ev as [p|p| |h0 text|h0 code|]; simpl; try apply Hsame.
  - unfold Orchestrator.start_build.
    destruct (negb (form_valid st)); simpl; try apply Hsame.
    destruct (active st) as [a|] eqn:Hact; simpl; rewrite ?Hact; simpl;
      try apply Hsame.
    intros Hfind. pose proof Hfind as Hfind'.
    apply List.find_some in Hfind' as [Hin Hh].
    apply Nat.eqb_eq in Hh.
    rewrite Forall_forall in Hf.
    destruct (Hf r) as [_ Hlt]; [by apply list_elem_of_In|].
    destruct (Nat.eqb_spec (spawned st) h) as [Heq|_]; [lia|]. by apply Hsame.
  - unfold on_line, active_child.
    destruct (active st) as [a|] eqn:Hact; simpl;
      rewrite ?Hact; simpl; try apply Hsame.
    destruct (handle a =? h0); simpl; rewrite ?Hact; simpl; try apply Hsame.
    destruct (handle a =? h); try apply Hsame.
    intros [= <-]. eexists. split; [done|]. simpl.
    destruct (marker_pct markers text); lia.
  - unfold on_exit, active_child.
    destruct (active st) as [a|] eqn:Hact; simpl;
      rewrite ?Hact; simpl; try apply Hsame.
    specialize (Hb a Hact).
    destruct (handle a =? h0); simpl; rewrite ?Hact; simpl; try apply Hsame.
    destruct (decide (code = 0%Z)); simpl;
      (destruct (handle a =? h); try apply Hsame);
      intros [= <-]; eexists; (split; [done|]); simpl; lia.
  - unfold on_cancel. destruct (active st) as [a|] eqn:Hact; simpl;
      rewrite ?Hact; simpl; try apply Hsame.
    destruct (handle a =? h); try apply Hsame.
    intros [= <-]. eexists. split; [done|]. simpl. lia.
Qed.

Lemma find_run_steps evs st h r :
  slot_inv st → bounded st →
  find_run h st = Some r →
  ∃ r', find_run h (steps st evs) = Some r' ∧ progress r ≤ progress r'.
Proof.
  revert st r. induction evs as [|ev evs IH]; intros st r Hi Hb Hf; simpl.
  - eauto.
  - destruct (find_run_step st ev h r Hi Hb Hf) as (r1 & Hf1 & Hle).
    destruct (IH (step st ev) r1) as (r2 & Hf2 & Hle2);
      [by apply slot_inv_step | by apply bounded_step | done |].
    exists r2. split; [done|lia].
Qed.

(** C10: take any state reached from startup and any run [r1] known in it
    by its subprocess handle; whatever events follow (lines of output, the
    exit, a cancellation, later builds), the run is still known and its
    progress is not lower than it was; and as long as it is the run the
    progress bar displays, the displayed percentage is not lower either. *)
Theorem progress_never_decreases (cfg : UserConfig) (d : Disk)
    (evs1 evs2 : list Event) (h : nat) (r1 : BuildRun) :
  let st1 := steps (initial cfg d) evs1 in
  let st2 := steps st1 evs2 in
  find_run h st1 = Some r1 →
  ∃ r2, find_run h st2 = Some r2 ∧
        progress r1 ≤ progress r2 ∧
        (displayed_run st1 = Some r1 → displayed_run st2 = Some r2 →
         progress_bar st1 ≤ progress_bar st2).
Proof.
  intros st1 st2 Hfind.
  assert (Hi1 : slot_inv st1) by apply slot_inv_steps, slot_inv_initial.
  assert (Hb1 : bounded st1) by (apply bounded_steps; by intros r).
  destruct (find_run_steps evs2 st1 h r1 Hi1 Hb1 Hfind) as (r2 & Hf2 & Hle).
  exists r2. split; [done|]. split; [done|].
  intros Hd1 Hd2.
  assert (Hi2 : slot_inv st2) by by apply slot_inv_steps.
  destruct Hi1 as (_ & _ & _ & Hbar1). destruct Hi2 as (_ & _ & _ & Hbar2).
  rewrite (Hbar1 r1 Hd1), (Hbar2 r2 Hd2). done.
Qed.

End Percentages.

End OrchestratorProofs.

(** ** The sample build session *)

Lemma at_most_one_build_active_witness :
  spawned (Orchestrator.step app_exists marker_table 3 build_state BuildAPK)
    = spawned build_state ∧
  messages (Orchestrator.step app_exists marker_table 3 build_state BuildAPK)
    = messages build_state ++ [AlreadyRunning].
Proof.
  pose proof (at_most_one_build_active app_exists marker_table 3
                home_config used_disk building) as (_ & _ & H).
  destruct (H (ex_intro _ (first_run ["Downloading kivy"] 25 running) eq_refl))
    as (_ & _ & _ & Hs & Hm).
  split; [exact Hs|]. vm_compute. reflexivity.
Defined.

Lemma build_needs_valid_form_witness :
  messages (Orchestrator.step app_exists marker_table 3
              (initial home_config used_disk) BuildAPK) = [ValidationError] ∧
  spawned (Orchestrator.step app_exists marker_table 3
             (initial home_config used_disk) BuildAPK) = 0.
Proof.
  pose proof (build_needs_valid_form app_exists marker_table 3
                (initial home_config used_disk)) as (_ & H).
  destruct (H (or_introl eq_refl)) as (_ & Hm & _ & _ & Hs).
  split; [exact Hm | exact Hs].
Defined.

Lemma exit_code_decides_status_witness :
  ∃ r', finished (Orchestrator.step app_exists marker_table 3 build_state
                                    (Exited 0 1)) = [r'] ∧
        status r' = failed.
Proof.
  destruct (exit_code_decides_status app_exists marker_table 3 build_state
              (first_run ["Downloading kivy"] 25 running) 1 eq_refl)
    as (_ & _ & r' & Hf & _ & _ & _ & Hfail & _).
  exists r'. split; [exact Hf|]. apply Hfail. discriminate.
Defined.

Example failed_build_surfaces_tail :
  messages (Orchestrator.steps app_exists marker_table 3 build_state
              [Line 0 "a"; Line 0 "b"; Line 7 "stale"; Line 0 "c";
               Exited 7 0; Exited 0 2])
  = [BuildFailed ["a"; "b"; "c"]].
Proof. vm_compute. reflexivity. Qed.

Example successful_build_is_saved :
  file (config_disk (Orchestrator.steps app_exists marker_table 3
                       (initial home_config blank_disk)
                       [SetScript "/home/u/app.py"; SetOutputDir "/tmp/apk";
                        BuildAPK; Line 0 "Done"; Exited 0 0]))
  = None ∧
  file (config_disk (Orchestrator.steps app_exists marker_table 3
                       (initial home_config used_disk)
                       [SetScript "/home/u/app.py"; SetOutputDir "/tmp/apk";
                        BuildAPK; Line 0 "Done"; Exited 0 0]))
  = Some (Doc (config_dict "/home/u" "/tmp/apk" [])).
Proof. split; vm_compute; reflexivity. Qed.

Lemma progress_never_decreases_witness :
  ∃ r2, find_run 0 (Orchestrator.steps app_exists marker_table 3 build_state
                                       finishing) = Some r2 ∧
        25 ≤ progress r2.
Proof.
  assert (Hpct : Forall (λ m : string * nat, snd m ≤ 100) marker_table).
  { unfold marker_table. repeat constructor; simpl; lia. }
  destruct (progress_never_decreases app_exists marker_table 3 Hpct
              home_config used_disk building finishing 0
              (first_run ["Downloading kivy"] 25 running) eq_refl)
    as (r2 & Hf & Hle & _).
  exists r2. split; [exact Hf | exact Hle].
Defined.

Example progress_of_sample_build :
  progress_bar (Orchestrator.steps app_exists marker_table 3 build_state
                  [Line 0 "Compiling main.py"; Line 0 "Downloading numpy"])
  = 50.
Proof. vm_compute. reflexivity. Qed.

(** * Further properties of the configuration store and the menu *)

(** ** Rebuilding the menu *)

(** What a rebuild leaves in the object, for every binding of
    [recent_projects]. *)
Lemma update_menu_self w :
  self (run update_recent_projects_menu w)
    = with_menu (self w) (rebuilt (recent_projects (self w))).
Proof.
  unfold update_recent_projects_menu, py_last5, rebuilt, with_menu.
  unfold_m. destruct (recent_projects (self w)) as [[| | |s|l|m]|] eqn:Hrp;
    simpl; rewrite ?for_each_add_command; simpl;
    rewrite ?entries_chars, ?Hrp; reflexivity.
Qed.

Lemma update_menu_run w :
  run update_recent_projects_menu w
    = mkWorld (disk w)
              (with_menu (self w) (rebuilt (recent_projects (self w))))
              (logged w).
Proof.
  pose proof (update_menu_frame w) as (Hd & Hl & _).
  pose proof (update_menu_self w) as Hs.
  destruct (run update_recent_projects_menu w) as [d a lg].
  simpl in *. by subst.
Qed.

Lemma update_menu_outcome_list w l :
  recent_projects (self w) = Some (PList l) →
  outcome update_recent_projects_menu w
    = match loop_error (drop (length l - 5) l) with
      | Some e => inl e
      | None => inr ()
      end.
Proof. intros H. unfold outcome. by rewrite (update_menu_list w l H). Qed.

(** The loop stops at the first item without a name. *)
Lemma entries_split items :
  ∃ rest, items = map bound_project (entries items) ++ rest ∧
          (loop_error items = None ↔ rest = []) ∧
          (∀ p, head rest = Some p → name_of p = None).
Proof.
  induction items as [|p items (rest & Hsplit & Hnone & Hhead)].
  - exists []. simpl. repeat split; done.
  - destruct p as [| | | | |d];
      try (eexists (_ :: items); simpl; repeat split;
           [done | done | by intros ? [= <-]]).
    simpl. destruct (d !! "name") as [n|] eqn:Hn.
    + exists rest. simpl. rewrite <- Hsplit. done.
    + exists (PDict d :: items). simpl. repeat split; try done.
      by intros ? [= <-].
Qed.

(** X1: for every list bound to [recent_projects], well formed or not, the
    rebuilt menu shows a prefix of the last five projects, each under its own
    name; the rebuild returns normally exactly when that prefix is all of them,
    and otherwise it stopped at a project without a name. *)
Theorem menu_is_named_prefix_of_last_five (w : World) (l : list pyval) :
  recent_projects (self w) = Some (PList l) →
  let w' := run update_recent_projects_menu w in
  ∃ rest,
    drop (length l - 5) l = map bound_project (recent_menu (self w')) ++ rest ∧
    Forall (λ e, name_of (bound_project e) = Some (label e))
           (recent_menu (self w')) ∧
    (outcome update_recent_projects_menu w = inr () ↔ rest = []) ∧
    (∀ p, head rest = Some p → name_of p = None).
Proof.
  intros Hl w'. subst w'.
  rewrite update_menu_self, (update_menu_outcome_list w l Hl), Hl. simpl.
  destruct (entries_split (drop (length l - 5) l))
    as (rest & Hsplit & Hnone & Hhead).
  exists rest. split; [done|]. split; [apply entries_labels|].
  split; [|done].
  rewrite <- Hnone. by destruct (loop_error _).
Qed.

Lemma menu_is_named_prefix_of_last_five_witness :
  ∃ rest,
    mixed_projects
      = map bound_project (recent_menu (self (run update_recent_projects_menu
          (with_recent sample_world (Some (PList mixed_projects)))))) ++ rest ∧
    ∀ p, head rest = Some p → name_of p = None.
Proof.
  destruct (menu_is_named_prefix_of_last_five
              (with_recent sample_world (Some (PList mixed_projects)))
              mixed_projects eq_refl) as (rest & Hsplit & _ & _ & Hhead).
  exists rest. split; [exact Hsplit | exact Hhead].
Defined.

Example menu_of_mixed_projects :
  map label (recent_menu (self (run update_recent_projects_menu
    (with_recent sample_world (Some (PList mixed_projects))))))
  = [PStr "p1"; PStr "p2"] ∧
  outcome update_recent_projects_menu
    (with_recent sample_world (Some (PList mixed_projects))) = inl KeyError.
Proof. split; vm_compute; reflexivity. Qed.

(** X2: the rebuild replaces the menu, it does not extend it: the result does
    not depend on the commands the menu held before, and rebuilding twice
    leaves the world a single rebuild leaves. *)
Theorem update_menu_idempotent (w : World) :
  (∀ m, self (run update_recent_projects_menu (with_old_menu w m))
        = self (run update_recent_projects_menu w)) ∧
  run update_recent_projects_menu (run update_recent_projects_menu w)
    = run update_recent_projects_menu w.
Proof.
  split.
  - intros m. by rewrite !update_menu_self.
  - by rewrite !update_menu_run.
Qed.

(** X3: only the last five projects are looked at: once five newer projects
    are recorded, older ones, malformed or not, change neither the menu nor
    the outcome of the rebuild. *)
Theorem older_projects_ignored (w : World) (older recent : list pyval) :
  5 ≤ length recent →
  let w1 := with_recent w (Some (PList (older ++ recent))) in
  let w2 := with_recent w (Some (PList recent)) in
  self (run update_recent_projects_menu w1)
    = with_menu (self w1) (recent_menu (self (run update_recent_projects_menu w2))) ∧
  outcome update_recent_projects_menu w1
    = outcome update_recent_projects_menu w2.
Proof.
  intros Hlen w1 w2.
  assert (Hdrop : drop (length (older ++ recent) - 5) (older ++ recent)
                  = drop (length recent - 5) recent).
  { rewrite length_app, drop_app.
    rewrite drop_ge by lia. simpl. f_equal. lia. }
  split.
  - rewrite !update_menu_self. simpl. by rewrite Hdrop.
  - rewrite (update_menu_outcome_list w1 _ eq_refl),
            (update_menu_outcome_list w2 _ eq_refl). by rewrite Hdrop.
Qed.

Lemma older_projects_ignored_witness :
  outcome update_recent_projects_menu
    (with_recent sample_world
       (Some (PList ([PNone; PInt 3] ++ drop 2 seven_projects))))
  = outcome update_recent_projects_menu
      (with_recent sample_world (Some (PList (drop 2 seven_projects)))).
Proof.
  refine (proj2 (older_projects_ignored sample_world [PNone; PInt 3]
                   (drop 2 seven_projects) _)).
  vm_compute. repeat constructor.
Defined.

(** X4: the menu is never filled from anything but a list: if a rebuild
    leaves at least one command, [recent_projects] is bound to a list whose
    fifth-from-last project (or first, for a shorter list) has a name. *)
Theorem menu_nonempty_needs_list (w : World) :
  recent_menu (self (run update_recent_projects_menu w)) ≠ [] →
  ∃ l p rest, recent_projects (self w) = Some (PList l) ∧
              drop (length l - 5) l = p :: rest ∧
              is_Some (name_of p).
Proof.
  rewrite update_menu_self. unfold rebuilt. simpl.
  destruct (recent_projects (self w)) as [[| | |s|l|m]|]; try done.
  intros Hne. exists l.
  destruct (drop (length l - 5) l) as [|p rest]; [done|].
  exists p, rest. split; [done|]. split; [done|].
  simpl in Hne. destruct p as [| | | | |d]; try done.
  simpl. by destruct (d !! "name").
Qed.

Lemma menu_nonempty_needs_list_witness :
  ∃ l p rest,
    recent_projects (self (with_recent sample_world (Some (PList seven_projects))))
      = Some (PList l) ∧
    drop (length l - 5) l = p :: rest ∧ is_Some (name_of p).
Proof.
  apply (menu_nonempty_needs_list
           (with_recent sample_world (Some (PList seven_projects)))).
  vm_compute. discriminate.
Defined.

(** ** Loading *)

(** The whole effect of [load_saved_config] over a readable JSON object. *)
Lemma load_dict_run w cfg :
  file (disk w) = Some (Doc (PDict cfg)) → can_read (disk w) = true →
  let a := loaded_app (self w) cfg in
  run load_saved_config w
    = mkWorld (disk w) (with_menu a (rebuilt (recent_projects a)))
              (logged w ++
               match outcome update_recent_projects_menu
                       (mkWorld (disk w) a (logged w)) with
               | inl e => [ERROR "Failed to load config" e]
               | inr _ => []
               end).
Proof.
  intros Hf Hr a. unfold run at 1. rewrite (load_dict w cfg Hf Hr).
  fold a. set (w0 := mkWorld (disk w) a (logged w)).
  pose proof (update_menu_run w0) as Hrun. unfold run in Hrun.
  unfold try_except, logger_error, outcome.
  destruct (update_recent_projects_menu w0) as [[e|[]] w1]; simpl in *;
    subst w1; simpl; [done|]. by rewrite app_nil_r.
Qed.

(** X5: missing keys fall back silently.  Over a readable JSON object
    without [last_output_dir] the output-directory field is set to the empty
    string, whatever it held; without [recent_projects] the in-memory list and
    the menu are emptied and nothing is logged. *)
Theorem load_missing_keys_fall_back (w : World) (cfg : gmap string pyval) :
  file (disk w) = Some (Doc (PDict cfg)) → can_read (disk w) = true →
  let w' := run load_saved_config w in
  (cfg !! "last_output_dir" = None → output_dir (self w') = PStr "") ∧
  (cfg !! "recent_projects" = None →
   recent_projects (self w') = Some (PList []) ∧
   recent_menu (self w') = [] ∧ logged w' = logged w).
Proof.
  intros Hf Hr w'. subst w'. rewrite (load_dict_run w cfg Hf Hr).
  unfold loaded_app. simpl. split.
  - by intros ->.
  - intros ->. simpl. repeat split; try done. apply app_nil_r.
Qed.

Lemma load_missing_keys_fall_back_witness :
  output_dir (self (run load_saved_config bare_world)) = PStr "" ∧
  recent_menu (self (run load_saved_config bare_world)) = [].
Proof.
  pose proof (load_missing_keys_fall_back bare_world ∅ eq_refl eq_refl)
    as (Ho & Hr).
  split; [exact (Ho eq_refl) | exact (proj1 (proj2 (Hr eq_refl)))].
Defined.

(** X6: [load_saved_config] changes the object only from a readable JSON
    object.  In every other case (file absent, unreadable, not JSON, or JSON
    that is not an object) it leaves the disk and every attribute as they were
    and logs one error. *)
Theorem load_changes_only_from_object (w : World) :
  ¬ (can_read (disk w) = true ∧
     ∃ cfg, file (disk w) = Some (Doc (PDict cfg))) →
  ∃ e, run load_saved_config w
       = mkWorld (disk w) (self w)
                 (logged w ++ [ERROR "Failed to load config" e]).
Proof.
  intros Hno.
  destruct (load_error (disk w)) as [e|] eqn:He.
  { exists e. unfold run. by rewrite (load_fails_early w e He). }
  unfold load_error in He.
  destruct (file (disk w)) as [[v|]|] eqn:Hf;
    destruct (can_read (disk w)) eqn:Hr; try discriminate.
  exists AttributeError. unfold run.
  rewrite (load_not_dict w v Hf Hr); [done|].
  intros cfg ->. apply Hno. split; [done|]. by exists cfg.
Qed.

Lemma load_changes_only_from_object_witness :
  ∃ e, run load_saved_config array_world
       = mkWorld (disk array_world) (self array_world)
                 (logged array_world ++ [ERROR "Failed to load config" e]).
Proof.
  apply (load_changes_only_from_object array_world).
  intros [_ [cfg H]]. discriminate H.
Defined.

(** X7: loading twice leaves the disk and the object a single load leaves:
    the fields and the menu are set again to the same values. *)
Theorem load_idempotent (w : World) :
  disk (run load_saved_config (run load_saved_config w))
    = disk (run load_saved_config w) ∧
  self (run load_saved_config (run load_saved_config w))
    = self (run load_saved_config w).
Proof.
  destruct (load_error (disk w)) as [e|] eqn:He.
  { unfold run. rewrite (load_fails_early w e He). simpl.
    match goal with
    | |- context [load_saved_config ?w1] =>
        by rewrite (load_fails_early w1 e He)
    end. }
  unfold load_error in He.
  destruct (file (disk w)) as [[v|]|] eqn:Hf;
    destruct (can_read (disk w)) eqn:Hr; try discriminate.
  destruct v as [| | | | |cfg];
    try (unfold run; rewrite (load_not_dict w _ Hf Hr) by done; simpl;
         match goal with
         | |- context [load_saved_config ?w1] =>
             by rewrite (load_not_dict w1 _ Hf Hr)
         end).
  rewrite (load_dict_run w cfg Hf Hr).
  match goal with
  | |- context [run load_saved_config ?w1] =>
      by rewrite (load_dict_run w1 cfg Hf Hr)
  end.
Qed.

(** ** Saving *)

(** X8: the file after two saves is the file after the second one alone,
    whatever the disk accepts or refuses, and saving never touches the
    object: the document is overwritten wholesale, nothing is merged. *)
Theorem last_save_wins (c1 c2 : pyval) (w : World) :
  disk (run (save_config c1 ;; save_config c2) w)
    = disk (run (save_config c2) w) ∧
  self (run (save_config c1 ;; save_config c2) w) = self w.
Proof.
  unfold save_config, open_and_dump. unfold_m.
  destruct w as [[de dc f r wr sp] a lg]. simpl.
  destruct de, wr, sp; simpl; done.
Qed.

(** X9: a save is not atomic.  When the file can be opened for writing but
    the write fails, the previous document is lost: the file no longer parses,
    the next load fails on it, and both errors are logged while the object is
    left as it was. *)
Theorem failed_write_loses_previous (config : pyval) (w : World) :
  dir_exists (disk w) && can_write (disk w) = true →
  has_space (disk w) = false → can_read (disk w) = true →
  run (save_config config ;; load_saved_config) w
    = mkWorld (disk (with_file w (Some Unparsable))) (self w)
              (logged w ++ [ERROR "Failed to save config" OSError;
                            ERROR "Failed to load config" JSONDecodeError]).
Proof.
  intros Hw Hs Hr.
  unfold save_config, open_and_dump, load_saved_config, open_and_load,
    with_file.
  unfold_m. rewrite Hw, Hs. simpl. rewrite Hr. simpl.
  by rewrite <- app_assoc.
Qed.

Lemma failed_write_loses_previous_witness :
  file (disk (run (save_config (config_dict "/home/u/src" "/tmp/out" []) ;;
                   load_saved_config) full_world)) = Some Unparsable.
Proof.
  rewrite (failed_write_loses_previous
             (config_dict "/home/u/src" "/tmp/out" []) full_world
             eq_refl eq_refl eq_refl).
  reflexivity.
Defined.

(** ** Construction *)

(** [__init__] over a file that exists, once the window can be built: the
    directory is made sure of, the file is left to [load_saved_config]. *)
Lemma launch_existing env home d :
  gui_ready env = true →
  is_Some (file d) → dir_exists d || dir_creatable d = true →
  dir_searchable d = true →
  launch env home d
    = (inr (), reassigned (run load_saved_config
                 (mkWorld (with_dir d) blank_form []))).
Proof.
  intros Hgui [c Hc] Hdir Hsearch. rewrite (launch_ready env home d Hgui).
  unfold init_config, mkdir_parent, path_exists, with_dir. unfold_m.
  destruct d as [de dc f r wr sp ds]. simpl in *. subst f ds.
  by destruct de, dc.
Qed.

(** X10: [__init__] returns exactly when a display and the methods bound to
    the widgets are there and [~/.pyapkconverter] exists or can be created, and
    can be searched.  No fault of the file itself (absent and not writable,
    unreadable, not JSON, no room to write it) keeps the application from
    starting.  Where the directory can neither be found nor created, the error
    of [mkdir] is raised before anything is written or logged; where it cannot
    be searched, the error of [exists()] is. *)
Theorem launch_returns_iff (env : Env) (home : string) (d : Disk) :
  ((launch env home d).1 = inr () ↔
   gui_ready env = true ∧
   dir_exists d || dir_creatable d = true ∧ dir_searchable d = true) ∧
  (display env = true → dir_exists d || dir_creatable d = false →
   launch env home d = (inl OSError, mkWorld d fresh_app [])) ∧
  (display env = true → dir_exists d || dir_creatable d = true →
   dir_searchable d = false →
   launch env home d = (inl OSError, mkWorld (with_dir d) fresh_app [])).
Proof.
  split; [split|split].
  - intros Hret. split; [by apply (launch_returns_ready env home d)|].
    destruct (launch_returns env home d Hret) as (w1 & Hi & _).
    pose proof (init_config_outcome home (mkWorld d fresh_app [])) as Ho.
    rewrite Hi in Ho. simpl in Ho.
    destruct (dir_exists d || dir_creatable d), (dir_searchable d);
      try discriminate Ho; done.
  - intros (Hgui & Hdir & Hsearch). rewrite (launch_ready env home d Hgui).
    pose proof (init_config_outcome home (mkWorld d fresh_app [])) as Ho.
    simpl in Ho. rewrite Hdir, Hsearch in Ho. simpl in Ho.
    by destruct (init_config home _) as [[e|[]] w1]; simpl in *.
  - intros Hdisp Hdir. unfold launch, init, init_config, mkdir_parent.
    unfold_m. rewrite Hdisp. destruct d as [de dc f r wr sp ds]. simpl in *.
    by destruct de, dc.
  - intros Hdisp Hdir Hsearch.
    unfold launch, init, init_config, mkdir_parent, path_exists, with_dir.
    unfold_m. rewrite Hdisp. destruct d as [de dc f r wr sp ds]. simpl in *.
    subst ds. by destruct de, dc.
Qed.

Lemma launch_returns_iff_witness :
  launch ready_env "/home/u" locked_disk
    = (inl OSError, mkWorld locked_disk fresh_app []) ∧
  launch ready_env "/home/u" sealed_disk
    = (inl OSError, mkWorld (with_dir sealed_disk) fresh_app []).
Proof.
  pose proof (launch_returns_iff ready_env "/home/u" locked_disk)
    as (_ & H1 & _).
  pose proof (launch_returns_iff ready_env "/home/u" sealed_disk)
    as (_ & _ & H2).
  split; [exact (H1 eq_refl eq_refl) | exact (H2 eq_refl eq_refl eq_refl)].
Defined.

(** X11: a configuration file that exists is never rewritten by [__init__],
    be it a configuration, any other JSON document or bytes that do not parse:
    the file and the permissions of the disk are after the launch what they
    were before. *)
Theorem launch_keeps_existing_file (env : Env) (home : string) (d : Disk) :
  is_Some (file d) →
  file (disk (launch env home d).2) = file d ∧
  can_read (disk (launch env home d).2) = can_read d ∧
  can_write (disk (launch env home d).2) = can_write d ∧
  has_space (disk (launch env home d).2) = has_space d.
Proof.
  intros [c Hc]. rewrite launch_disk. destruct (display env); [|done].
  unfold init_config, mkdir_parent, path_exists. unfold_m.
  destruct d as [de dc f r wr sp ds]. simpl in *. subst f.
  by destruct de, dc, ds.
Qed.

Lemma launch_keeps_existing_file_witness :
  file (disk (launch bare_env "/home/u" corrupt_disk).2) = Some Unparsable.
Proof.
  exact (proj1 (launch_keeps_existing_file bare_env "/home/u" corrupt_disk
                  (ex_intro _ Unparsable eq_refl))).
Defined.

(** X12: launching twice leaves the disk a single launch leaves, on every
    disk: whether the first launch created the file, failed to, or found one. *)
Theorem launch_disk_idempotent (env : Env) (home : string) (d : Disk) :
  disk (launch env home (disk (launch env home d).2)).2
    = disk (launch env home d).2.
Proof.
  rewrite !launch_disk. destruct (display env); [|done].
  unfold init_config, mkdir_parent, path_exists, save_config, open_and_dump.
  unfold_m.
  destruct d as [de dc [c|] r wr sp ds]; simpl;
    destruct de, dc, ds, wr, sp; reflexivity.
Qed.

(** X13: a first launch that cannot write the file still starts, the
    window being buildable and the directory searchable.  The directory is
    created if need be, no file appears, the failed save and the failed load
    are logged in that order, and the form comes up empty. *)
Theorem first_launch_unwritable_still_starts (env : Env) (home : string)
    (d : Disk) :
  gui_ready env = true →
  file d = None → dir_exists d || dir_creatable d = true →
  dir_searchable d = true →
  can_write d = false →
  launch env home d
    = (inr (), mkWorld (with_dir d) empty_form
                       [ERROR "Failed to save config" OSError;
                        ERROR "Failed to load config" OSError]).
Proof.
  intros Hgui. destruct d as [de dc f r wr sp ds]. simpl.
  intros -> Hdir -> ->. rewrite (launch_ready env home _ Hgui).
  destruct de, dc; try discriminate Hdir; reflexivity.
Qed.

Lemma first_launch_unwritable_still_starts_witness :
  logged (launch ready_env "/home/u" readonly_disk).2
    = [ERROR "Failed to save config" OSError;
       ERROR "Failed to load config" OSError].
Proof.
  rewrite (first_launch_unwritable_still_starts ready_env "/home/u"
             readonly_disk eq_refl eq_refl eq_refl eq_refl eq_refl).
  reflexivity.
Defined.

(** X14: launched, the window being buildable and the directory searchable,
    over a file that exists but cannot be loaded (unreadable, not JSON, or
    JSON that is not an object), the application starts with the empty form,
    an empty menu and that one error in the log; the file stays. *)
Theorem launch_over_unloadable_file (env : Env) (home : string) (d : Disk) :
  gui_ready env = true →
  is_Some (file d) → dir_exists d || dir_creatable d = true →
  dir_searchable d = true →
  ¬ (can_read d = true ∧ ∃ cfg, file d = Some (Doc (PDict cfg))) →
  ∃ e, launch env home d
       = (inr (), mkWorld (with_dir d) empty_form
                          [ERROR "Failed to load config" e]).
Proof.
  intros Hgui Hfile Hdir Hsearch Hno.
  rewrite (launch_existing env home d Hgui Hfile Hdir Hsearch).
  set (w2 := mkWorld (with_dir d) _ []).
  destruct (load_error (disk w2)) as [e|] eqn:He.
  { exists e. unfold run. by rewrite (load_fails_early w2 e He). }
  unfold load_error in He. simpl in He.
  destruct (file d) as [[v|]|] eqn:Hf;
    destruct (can_read d) eqn:Hr; try discriminate.
  exists AttributeError. unfold run.
  rewrite (load_not_dict w2 v Hf Hr); [done|].
  intros cfg ->. apply Hno. split; [done|]. by exists cfg.
Qed.

Lemma launch_over_unloadable_file_witness :
  ∃ e, launch ready_env "/home/u" corrupt_disk
       = (inr (), mkWorld (with_dir corrupt_disk) empty_form
                          [ERROR "Failed to load config" e]).
Proof.
  apply (launch_over_unloadable_file ready_env "/home/u" corrupt_disk).
  - reflexivity.
  - by exists Unparsable.
  - reflexivity.
  - reflexivity.
  - intros [_ [cfg H]]. discriminate H.
Defined.

(** X15: where [__init__] returns, whatever the configuration file holds,
    the form starts with an empty script field and the status [Ready]; over a
    readable JSON object the output-directory field holds its
    [last_output_dir], the empty string when the key is missing, and the menu
    is the one rebuilt from its [recent_projects]. *)
Theorem launch_loads_output_dir (env : Env) (home : string) (d : Disk) :
  (launch env home d).1 = inr () →
  let a := self (launch env home d).2 in
  python_file a = PStr "" ∧ status_var a = "Ready" ∧
  ∀ cfg, file d = Some (Doc (PDict cfg)) → can_read d = true →
         output_dir a = default (PStr "") (cfg !! "last_output_dir") ∧
         recent_menu a
           = rebuilt (Some (default (PList []) (cfg !! "recent_projects"))).
Proof.
  intros Hret a. subst a.
  destruct (launch_returns env home d Hret) as (w1 & _ & _ & Hf & Hr & ->).
  set (w2 := mkWorld (disk w1) _ (logged w1)).
  pose proof (load_frame w2) as (_ & _ & Hp & Hs).
  simpl. rewrite Hp, Hs. split; [done|]. split; [done|].
  intros cfg Hfile Hread.
  assert (Hf2 : file (disk w2) = Some (Doc (PDict cfg))).
  { simpl. rewrite Hf; [done|]. rewrite Hfile. by eexists. }
  assert (Hr2 : can_read (disk w2) = true) by (simpl; congruence).
  by rewrite (load_dict_run w2 cfg Hf2 Hr2).
Qed.

Lemma launch_loads_output_dir_witness :
  python_file (self (launch ready_env "/home/u" used_disk).2) = PStr "" ∧
  output_dir (self (launch ready_env "/home/u" used_disk).2)
    = PStr "/home/u/out".
Proof.
  pose proof (launch_loads_output_dir ready_env "/home/u" used_disk eq_refl)
    as (Hp & _ & H).
  split; [exact Hp|]. exact (proj1 (H _ eq_refl eq_refl)).
Defined.

(** ** From one session to the next *)

(** X16: what a session saves is what the next launch shows, except for the
    list itself.  After a successful save of a configuration, a launch for
    which the window can be built and the directory searched returns with the
    saved output directory in the form and the menu rebuilt from the saved
    projects, logs nothing unless one of the last five projects lacks a name,
    and leaves the file as saved; the in-memory list is empty again. *)
Theorem saved_config_survives_restart
    (env : Env) (home last_python_dir last_output_dir : string)
    (projects : list pyval) (w : World) :
  gui_ready env = true →
  dir_exists (disk w) = true → dir_searchable (disk w) = true →
  can_write (disk w) = true →
  has_space (disk w) = true → can_read (disk w) = true →
  let config := config_dict last_python_dir last_output_dir projects in
  let next := launch env home (disk (run (save_config config) w)) in
  next.1 = inr () ∧
  file (disk next.2) = Some (Doc config) ∧
  output_dir (self next.2) = PStr last_output_dir ∧
  recent_menu (self next.2) = rebuilt (Some (PList projects)) ∧
  recent_projects (self next.2) = Some (PList []) ∧
  (loop_error (drop (length projects - 5) projects) = None →
   logged next.2 = []).
Proof.
  intros Hgui Hd Hsearch Hw Hs Hr config next. subst next.
  set (d1 := disk (with_file w (Some (Doc config)))).
  assert (Hsave : disk (run (save_config config) w) = d1)
    by (unfold run; by rewrite (save_config_ok config w Hd Hw Hs)).
  rewrite Hsave.
  assert (Hfile : file d1 = Some (Doc config)) by done.
  assert (Hdir : dir_exists d1 || dir_creatable d1 = true)
    by (simpl; by rewrite Hd).
  rewrite (launch_existing env home d1 Hgui (ex_intro _ _ Hfile) Hdir Hsearch).
  set (w2 := mkWorld (with_dir d1) _ []).
  assert (Hr2 : can_read (disk w2) = true) by done.
  unfold config, config_dict in *.
  rewrite (load_dict_run w2 _ Hfile Hr2). simpl.
  repeat split; try done.
  intros Hnamed.
  match goal with
  | |- context [outcome update_recent_projects_menu ?w0] =>
      rewrite (update_menu_outcome_list w0 projects eq_refl)
  end.
  by rewrite Hnamed.
Qed.

Lemma saved_config_survives_restart_witness :
  output_dir (self (launch ready_env "/home/u" (disk (run (save_config
      (config_dict "/home/u/src" "/out" seven_projects)) sample_world))).2)
    = PStr "/out" ∧
  logged (launch ready_env "/home/u" (disk (run (save_config
      (config_dict "/home/u/src" "/out" seven_projects)) sample_world))).2
    = [].
Proof.
  pose proof (saved_config_survives_restart ready_env "/home/u" "/home/u/src"
                "/out" seven_projects sample_world
                eq_refl eq_refl eq_refl eq_refl eq_refl eq_refl)
    as (_ & _ & Ho & _ & _ & Hl).
  split; [exact Ho|]. apply Hl. vm_compute. reflexivity.
Defined.
